(** * Incremental content synchronisation: a shallow embedding of
      [website.go] and of the [types] package it relies on.

    The development follows the layout of the program:

    - [GoStrings]: the functions of Go's [strings], [encoding/hex] and
      [path/filepath] packages that the program calls, on byte strings;
    - [Time], [DocumentType], [Metadata], [Document], [Post], [DataStore]
      and [GenerationContext]: the data of the [types] package and the
      store;
    - [Os]: the environment of the process (files, clock, entropy, faults)
      and the monad that threads it;
    - the program itself: [RandID], the two digests, [generatePath],
      [processMarkdownFile], [generate] and [main];
    - the vocabulary of the properties and a few sample environments;
    - the properties, module by module, and their instances on the sample
      runs. *)

From Stdlib Require Import ZArith Ascii Bool List Lia.
From Stdlib Require String.
From Stdlib Require Strings.Byte.
From stdpp Require Import gmap strings.

Local Open Scope Z_scope.

(* ===================================================================== *)
(** * Go strings *)
(* ===================================================================== *)

(** A Go [string] is an immutable sequence of bytes; [String.string] is the
    same thing with [ascii] for the byte. *)

Module GoStrings.

(** [len(s)] *)
Definition len (s : string) : Z := Z.of_nat (String.length s).

(** [s[:n]] and [s[n:]] *)
Fixpoint take (n : nat) (s : string) : string :=
  match n, s with
  | S n', String c s' => String c (take n' s')
  | _, _ => EmptyString
  end.

Fixpoint drop (n : nat) (s : string) : string :=
  match n, s with
  | S n', String _ s' => drop n' s'
  | _, _ => s
  end.

(** [strings.HasPrefix(s, prefix)] *)
Definition HasPrefix (s prefix : string) : bool := String.prefix prefix s.

(** [strings.TrimPrefix(s, prefix)]: [s] without the leading [prefix], or
    [s] itself when it does not start with it. *)
Definition TrimPrefix (s prefix : string) : string :=
  if HasPrefix s prefix then drop (String.length prefix) s else s.

(** [strings.Index(s, substr)]: the index of the first instance of
    [substr] in [s], or [-1]. *)
Fixpoint Index (s substr : string) : Z :=
  if HasPrefix s substr then 0
  else match s with
       | EmptyString => -1
       | String _ s' =>
           let i := Index s' substr in
           if i <? 0 then -1 else i + 1
       end.

(** [strings.Cut(s, sep)]:
    [if i := Index(s, sep); i >= 0 { return s[:i], s[i+len(sep):], true }
     return s, "", false] *)
Definition Cut (s sep : string) : string * string * bool :=
  let i := Index s sep in
  if 0 <=? i
  then (take (Z.to_nat i) s, drop (Z.to_nat (i + len sep)) s, true)
  else (s, EmptyString, false).

(** [strings.ReplaceAll(s, old, new)] replaces the non-overlapping instances
    of [old], found from left to right.  [scan] walks [s] once: at an
    instance of [old] it emits [new] and passes over the [len(old)] bytes of
    the instance ([skip] counts those still to pass). *)
Fixpoint scan (old new : string) (skip : nat) (s : string) : string :=
  match s with
  | EmptyString => EmptyString
  | String c s' =>
      match skip with
      | S k => scan old new k s'
      | O =>
          if HasPrefix s old
          then new +:+ scan old new (Nat.pred (String.length old)) s'
          else String c (scan old new O s')
      end
  end.

(** With an empty [old], Go inserts [new] before every rune and at the end;
    the program never passes an empty pattern, and the model inserts before
    every byte, which is the same on ASCII text. *)
Fixpoint intersperse (new s : string) : string :=
  match s with
  | EmptyString => new
  | String c s' => new +:+ String c (intersperse new s')
  end.

Definition ReplaceAll (s old new : string) : string :=
  if String.eqb old new then s
  else match old with
       | EmptyString => intersperse new s
       | String _ _ => scan old new O s
       end.

(** [strings.ToLower].  Go first looks whether [s] is pure ASCII; if so it
    lowers the bytes ['A'..'Z'], otherwise it maps [unicode.ToLower] over
    the runes of [s].  The rune mapping belongs to Go's [unicode] tables and
    is a parameter [unicodeLower] of the model. *)
Definition isASCIIbyte (c : ascii) : bool := (nat_of_ascii c <? 128)%nat.

Fixpoint isASCII (s : string) : bool :=
  match s with
  | EmptyString => true
  | String c s' => isASCIIbyte c && isASCII s'
  end.

Definition isUpper (c : ascii) : bool :=
  ((65 <=? nat_of_ascii c) && (nat_of_ascii c <=? 90))%nat.

Definition lowerByte (c : ascii) : ascii :=
  if isUpper c then ascii_of_nat (nat_of_ascii c + 32) else c.

Fixpoint mapBytes (f : ascii -> ascii) (s : string) : string :=
  match s with
  | EmptyString => EmptyString
  | String c s' => String (f c) (mapBytes f s')
  end.

Definition ToLower (unicodeLower : string -> string) (s : string) : string :=
  if isASCII s then mapBytes lowerByte s else unicodeLower s.

(** [hex.EncodeToString] and the [%x] verb of [fmt] on a byte array: two
    lower-case hexadecimal digits per byte. *)
Definition hexDigit (n : N) : ascii :=
  match n with
  | 0%N => "0" | 1%N => "1" | 2%N => "2" | 3%N => "3"
  | 4%N => "4" | 5%N => "5" | 6%N => "6" | 7%N => "7"
  | 8%N => "8" | 9%N => "9" | 10%N => "a" | 11%N => "b"
  | 12%N => "c" | 13%N => "d" | 14%N => "e" | _ => "f"
  end%char.

Fixpoint EncodeToString (b : list Byte.byte) : string :=
  match b with
  | nil => EmptyString
  | x :: b' =>
      String (hexDigit (N.div (Byte.to_N x) 16))
        (String (hexDigit (N.modulo (Byte.to_N x) 16)) (EncodeToString b'))
  end.

(** [filepath.Ext(path)]: the suffix starting at the last dot of the last
    element of [path], empty when that element has no dot. *)
Fixpoint Ext (path : string) : string :=
  match path with
  | EmptyString => EmptyString
  | String c rest =>
      let e := Ext rest in
      if String.eqb e EmptyString
      then if Ascii.eqb c "." then
             (if existsb (Ascii.eqb "/") (String.list_ascii_of_string rest)
              then EmptyString else path)
           else EmptyString
      else e
  end.

End GoStrings.

(* ===================================================================== *)
(** * The [types] package *)
(* ===================================================================== *)

(** A Go map is a reference that may be [nil]: reading a [nil] map finds
    nothing, assigning to it panics.  [None] is the [nil] map. *)
Abbreviation gomap V := (option (gmap string V)).

Definition mapaccess {V} (m : gomap V) (k : string) : option V :=
  match m with
  | None => None
  | Some g => g !! k
  end.

Module Time.

(** [time.Time]: seconds and nanoseconds since the zero instant (January 1,
    year 1, 00:00 UTC) and a location.  The monotonic clock reading of
    [time.Now] takes no part in what the program does with a time. *)
Inductive Location := UTC | Local | FixedZone (offset : Z).

Record t := mk { sec : Z; nsec : Z; loc : Location }.

Definition zero : t := mk 0 0 UTC.

(** [t.IsZero()] looks at the instant, not at the location. *)
Definition IsZero (x : t) : bool := (sec x =? 0) && (nsec x =? 0).

(** [t.UTC()] *)
Definition toUTC (x : t) : t := mk (sec x) (nsec x) UTC.

End Time.

Module DocumentType.

(** [DocumentTypeUnknown], [DocumentTypeMarkdown], [DocumentTypeHTML]: the
    three values a parsed document has.  The other values of the underlying
    [uint16] are outside the model. *)
Inductive t := Unknown | Markdown | HTML.

Definition eqb (a b : t) : bool :=
  match a, b with
  | Unknown, Unknown | Markdown, Markdown | HTML, HTML => true
  | _, _ => false
  end.

(** Modelled from the spec: the [String] method that [stringer -linecomment]
    generates into [post_types.go], which is not part of the sources at
    hand; the names are the line comments of the three constants, which are
    also the names the specification gives the enumeration. *)
Definition String (x : t) : string :=
  match x with
  | Unknown => "unknown"
  | Markdown => "markdown"
  | HTML => "html"
  end.

End DocumentType.

Module Metadata.

Record t := mk {
  ID : string;
  Title : string;
  Author : string;
  Description : string;
  Date : Time.t;
  Path : string;
  GoPackage : string;
  Canonical : string;
  Hidden : bool
}.

Definition withID (m : t) (v : string) : t :=
  mk v (Title m) (Author m) (Description m) (Date m) (Path m)
     (GoPackage m) (Canonical m) (Hidden m).

Definition withDate (m : t) (v : Time.t) : t :=
  mk (ID m) (Title m) (Author m) (Description m) v (Path m)
     (GoPackage m) (Canonical m) (Hidden m).

Definition withPath (m : t) (v : string) : t :=
  mk (ID m) (Title m) (Author m) (Description m) (Date m) v
     (GoPackage m) (Canonical m) (Hidden m).

End Metadata.

Module Document.

Record t := mk {
  Type_ : DocumentType.t;
  Markdown : string;
  HTML : string;
  Metadata : Metadata.t
}.

Definition withMeta (d : t) (m : Metadata.t) : t :=
  mk (Type_ d) (Markdown d) (HTML d) m.

Definition withMarkdown (d : t) (s : string) : t :=
  mk (Type_ d) s (HTML d) (Metadata d).

End Document.

Module Post.

Record t := mk {
  ID : string;
  FilePath : string;
  Path : string;
  Hash : string;
  CreatedAt : Time.t;
  UpdatedAt : Time.t;
  Main : option Document.t;
  Translated : gomap Document.t
}.

End Post.

(** Modelled from the spec: [DataStore] and [GenerationContext] are declared
    in a file of package [main] that is not part of the sources at hand.
    The specification describes the persisted state as one field, a mapping
    from post ID to post; [website.go] reaches it as [gc.DataStore.Posts],
    through a pointer that [main] checks against [nil]. *)
Module DataStore.
Record t := mk { Posts : gomap Post.t }.
End DataStore.

Module GenerationContext.
Record t := mk { DataStore : option DataStore.t }.
End GenerationContext.

(** [strconv.FormatBool] *)
Definition FormatBool (b : bool) : string := if b then "true" else "false".

(* ===================================================================== *)
(** * The process and its environment *)
(* ===================================================================== *)

Module Os.

(** Go [error] values the program produces or tests. *)
Inductive error :=
| ErrInvalidMarkdown               (* the program's own sentinel *)
| ErrNotExist (path : string)      (* [os.IsNotExist] holds *)
| ErrExist (path : string)         (* exclusive creation of a present file *)
| ErrIO                            (* any other failure of a system call *)
| ErrExternal (msg : string).      (* parser, YAML and JSON errors *)

Definition IsNotExist (e : error) : bool :=
  match e with ErrNotExist _ => true | _ => false end.

(** A Go result [(T, error)]. *)
Inductive result (A : Type) :=
| Ok (a : A)
| Err (e : error).
Arguments Ok {A} a.
Arguments Err {A} e.

Record File := mkFile { data : string; mode : Z }.

(** The flags of [os.OpenFile] the program combines with [O_RDWR]. *)
Record Flags := mkFlags { O_CREATE : bool; O_TRUNC : bool; O_EXCL : bool }.

(** An open [*os.File]: the file it names and the current offset. *)
Record Fd := mkFd { fd_path : string; fd_off : nat }.

Inductive SysCall :=
| CStat (path : string)
| CReadFile (path : string)
| CWriteFile (path : string) (bytes : string)
| COpen (path : string) (flags : Flags)
| CWrite (path : string) (bytes : string)
| CRead (path : string)
| CSeek (path : string)
| CClose (path : string)
| CRename (from to : string).

(** The environment of one run.  [faults] says which system calls fail for
    a reason the file map does not show (permissions, a full disk), by their
    position in the run; [kill] is the number of system calls the process
    may still start before it is killed, when it is killed at all;
    [clock] and [entropy] are what [time.Now] and [rand.Read] will return,
    call after call; [log] keeps the records written at error level. *)
Record World := mkWorld {
  files : gmap string File;
  trace : list SysCall;
  faults : nat -> bool;
  kill : option nat;
  clock : nat -> Time.t;
  ticks : nat;
  entropy : nat -> list Byte.byte * bool;
  draws : nat;
  log : list (string * error)
}.

Definition setFiles (w : World) (fs : gmap string File) : World :=
  mkWorld fs (trace w) (faults w) (kill w) (clock w) (ticks w)
          (entropy w) (draws w) (log w).

Definition enter (w : World) (c : SysCall) : World :=
  mkWorld (files w) (c :: trace w) (faults w) (Nat.pred <$> kill w)
          (clock w) (ticks w) (entropy w) (draws w) (log w).

Definition tick (w : World) : World :=
  mkWorld (files w) (trace w) (faults w) (kill w) (clock w) (S (ticks w))
          (entropy w) (draws w) (log w).

Definition draw (w : World) : World :=
  mkWorld (files w) (trace w) (faults w) (kill w) (clock w) (ticks w)
          (entropy w) (S (draws w)) (log w).

Definition logError (w : World) (path : string) (e : error) : World :=
  mkWorld (files w) (trace w) (faults w) (kill w) (clock w) (ticks w)
          (entropy w) (draws w) ((path, e) :: log w).

(** How a computation of the process ends: normally; in [log.Fatal], which
    exits the process; in a run-time panic; or killed from outside. *)
Inductive Outcome (A : Type) :=
| Done (a : A)
| Fatal (msg : string)
| Panic (msg : string)
| Killed.
Arguments Done {A} a.
Arguments Fatal {A} msg.
Arguments Panic {A} msg.
Arguments Killed {A}.

Definition M (A : Type) : Type := World -> Outcome A * World.

Definition ret {A} (a : A) : M A := fun w => (Done a, w).

Definition bind {A B} (c : M A) (k : A -> M B) : M B := fun w =>
  match c w with
  | (Done a, w') => k a w'
  | (Fatal msg, w') => (Fatal msg, w')
  | (Panic msg, w') => (Panic msg, w')
  | (Killed, w') => (Killed, w')
  end.

Definition fatal {A} (msg : string) : M A := fun w => (Fatal msg, w).
Definition panic {A} (msg : string) : M A := fun w => (Panic msg, w).

(** A system call: the process may be killed before it starts; otherwise it
    is recorded, and it either fails by fault, changing nothing, or acts on
    the files. *)
Definition syscall {A} (c : SysCall)
    (act : gmap string File -> result A * gmap string File) : M (result A) :=
  fun w =>
    match kill w with
    | Some O => (Killed, w)
    | _ =>
        let w1 := enter w c in
        if faults w (length (trace w)) then (Done (Err ErrIO), w1)
        else let '(r, fs) := act (files w) in (Done r, setFiles w1 fs)
    end.

(** [os.Stat]: only the mode of the answer is used. *)
Definition Stat (path : string) : M (result Z) :=
  syscall (CStat path) (fun fs =>
    match fs !! path with
    | Some f => (Ok (mode f), fs)
    | None => (Err (ErrNotExist path), fs)
    end).

Definition ReadFile (path : string) : M (result string) :=
  syscall (CReadFile path) (fun fs =>
    match fs !! path with
    | Some f => (Ok (data f), fs)
    | None => (Err (ErrNotExist path), fs)
    end).

(** [os.WriteFile] truncates a present file and keeps its mode; [perm] is
    for a file it has to create. *)
Definition WriteFile (path bytes : string) (perm : Z) : M (result unit) :=
  syscall (CWriteFile path bytes) (fun fs =>
    match fs !! path with
    | Some f => (Ok tt, <[path := mkFile bytes (mode f)]> fs)
    | None => (Ok tt, <[path := mkFile bytes perm]> fs)
    end).

Definition OpenFile (path : string) (fl : Flags) (perm : Z) : M (result Fd) :=
  syscall (COpen path fl) (fun fs =>
    match fs !! path with
    | Some f =>
        if O_CREATE fl && O_EXCL fl then (Err (ErrExist path), fs)
        else if O_TRUNC fl
             then (Ok (mkFd path O), <[path := mkFile EmptyString (mode f)]> fs)
             else (Ok (mkFd path O), fs)
    | None =>
        if O_CREATE fl
        then (Ok (mkFd path O), <[path := mkFile EmptyString perm]> fs)
        else (Err (ErrNotExist path), fs)
    end).

(** [f.Write(b)] writes at the offset of [f], over what is there. *)
Definition overwrite (off : nat) (bytes old : string) : string :=
  GoStrings.take off old +:+ bytes
    +:+ GoStrings.drop (off + String.length bytes) old.

Definition Write (f : Fd) (bytes : string) : M (result Fd) :=
  syscall (CWrite (fd_path f) bytes) (fun fs =>
    match fs !! fd_path f with
    | Some x =>
        (Ok (mkFd (fd_path f) (fd_off f + String.length bytes)),
         <[fd_path f := mkFile (overwrite (fd_off f) bytes (data x)) (mode x)]> fs)
    | None => (Err ErrIO, fs)
    end).

(** Reading [f] from its offset to the end. *)
Definition ReadAll (f : Fd) : M (result string) :=
  syscall (CRead (fd_path f)) (fun fs =>
    match fs !! fd_path f with
    | Some x => (Ok (GoStrings.drop (fd_off f) (data x)), fs)
    | None => (Err ErrIO, fs)
    end).

(** [f.Seek(0, 0)] *)
Definition Seek0 (f : Fd) : M (result Fd) :=
  syscall (CSeek (fd_path f)) (fun fs => (Ok (mkFd (fd_path f) O), fs)).

Definition Close (f : Fd) : M (result unit) :=
  syscall (CClose (fd_path f)) (fun fs => (Ok tt, fs)).

(** [os.Rename] replaces [to] by [from] in one step. *)
Definition Rename (from to : string) : M (result unit) :=
  syscall (CRename from to) (fun fs =>
    match fs !! from with
    | Some f => (Ok tt, <[to := f]> (delete from fs))
    | None => (Err (ErrNotExist from), fs)
    end).

(** [time.Now()] *)
Definition Now : M Time.t := fun w => (Done (clock w (ticks w)), tick w).

(** [rand.Read(b)] on a zeroed array of [n] bytes: the contents of [b]
    afterwards, and whether an error came back. *)
Definition fit (n : nat) (bs : list Byte.byte) : list Byte.byte :=
  firstn n (bs ++ repeat Byte.x00 n).

Definition randRead (n : nat) : M (list Byte.byte * bool) := fun w =>
  let '(bs, failed) := entropy w (draws w) in
  (Done (fit n bs, failed), draw w).

(** [log.Error().Err(err).Str("path", path)] *)
Definition logErr (path : string) (e : error) : M unit := fun w =>
  (Done tt, logError w path e).

End Os.

Export Os.

Notation "x <- c ; k" := (Os.bind c (fun x => k))
  (at level 20, c at level 100, k at level 200, only parsing).

(* ===================================================================== *)
(** * The program *)
(* ===================================================================== *)

Module Website.

Import GoStrings.

Definition nl : string := String "010" EmptyString.
Definition dquote : string := String "034" EmptyString.

(** The front-matter delimiter line, ["---\n"]. *)
Definition delim : string := "---" +:+ nl.

Definition rootDir : string := "root".
Definition dbFile : string := "zdata/data.json.zstd".

(** [zstd] encoder levels the program asks for. *)
Inductive Level := SpeedDefault | SpeedBestCompression.

Section Program.

(** What the program takes from libraries and from the rest of the
    repository. *)

(** [unicode.ToLower] mapped over the runes of a string. *)
Variable unicodeLower : string -> string.
(** [blake3.New()], the bytes written to it, [Sum(nil)]. *)
Variable blake3 : string -> list Byte.byte.
(** [t.Format(time.RFC3339)] *)
Variable formatRFC3339 : Time.t -> string.
(** [markdown.ParseMarkdown], the content parser. *)
Variable ParseMarkdown : string -> result Document.t.
(** [yaml.Marshal] on a [Metadata]. *)
Variable yamlMarshal : Metadata.t -> result string.
(** The bytes a [zstd] writer has produced when it is closed. *)
Variable zstdCompress : Level -> string -> string.
(** [json.NewDecoder(r).Decode(&gc.DataStore)] over a [zstd] reader [r] of
    the given bytes: an error, or the pointer left in [gc.DataStore]. *)
Variable snapshotDecode : string -> result (option DataStore.t).
(** [json.Marshal] and [json.MarshalIndent] on [gc.DataStore]. *)
Variable jsonMarshal : option DataStore.t -> result string.
Variable jsonMarshalIndent : option DataStore.t -> result string.
(** Lines 238-259 of [generate]: [dist] is cleared, the static files are
    copied and the source tree is listed.  The walk and the copy are the
    tree-walker and asset-copier boundary; this is their effect on the
    environment and the list of paths they give, or the error [generate]
    returns. *)
Variable siteTree : M (result (list string)).

(** ** [types.RandID] *)
Definition RandID : M string :=
  rd <- randRead 16 ;
  let '(b, failed) := rd in
  if (failed : bool) then panic "failed to generate random ID"
  else ret (EncodeToString b).

(** ** [Metadata.Hash] and [Document.Hash] *)
Definition Metadata_Hash (g : Metadata.t) : string :=
  EncodeToString (blake3 (
    Metadata.ID g +:+ Metadata.Title g +:+ Metadata.Author g
    +:+ Metadata.Description g +:+ formatRFC3339 (Metadata.Date g)
    +:+ Metadata.Path g +:+ Metadata.GoPackage g +:+ Metadata.Canonical g
    +:+ FormatBool (Metadata.Hidden g))).

Definition Document_Hash (g : Document.t) : string :=
  EncodeToString (blake3 (
    DocumentType.String (Document.Type_ g) +:+ Document.Markdown g
    +:+ Document.HTML g +:+ Metadata_Hash (Document.Metadata g))).

(** ** [generatePath] *)

(** [for strings.HasPrefix(fp, "/") { fp = strings.TrimPrefix(fp, "/") }] *)
Fixpoint trimSlashes (fp : string) : string :=
  match fp with
  | String c rest => if Ascii.eqb c "/" then trimSlashes rest else fp
  | EmptyString => fp
  end.

Definition generatePath (title : string) : M string :=
  let fp := TrimPrefix title rootDir in
  let fp := trimSlashes fp in
  let fp := ToLower unicodeLower fp in
  let fp := ReplaceAll fp " " "-" in
  let fp := ReplaceAll fp "/" "-" in
  let fp := ReplaceAll fp "{" "-" in
  let fp := ReplaceAll fp "}" "-" in
  let fp := ReplaceAll fp "|" "-" in
  let fp := ReplaceAll fp "\" "-" in
  let fp := ReplaceAll fp "^" "-" in
  let fp := ReplaceAll fp "~" "-" in
  let fp := ReplaceAll fp "[" "-" in
  let fp := ReplaceAll fp "]" "-" in
  let fp := ReplaceAll fp "'" "-" in
  let fp := ReplaceAll fp dquote "-" in
  let fp := ReplaceAll fp "`" "-" in
  let fp := ReplaceAll fp "----" "-" in
  let fp := ReplaceAll fp "---" "-" in
  let fp := ReplaceAll fp "--" "-" in
  let fp := ReplaceAll fp "--" "-" in
  let fp := ReplaceAll fp "--" "-" in
  rd <- randRead 4 ;
  let '(b, _) := rd in
  ret ("/blog/posts/" +:+ fp +:+ "-" +:+ EncodeToString b).

(** ** [processMarkdownFile] *)

Definition parseMarkdown (path : string) (bytes : string) : result Document.t :=
  ParseMarkdown bytes.

(** Lines 154-171: the three missing fields are filled in, one [if] each;
    [updated] is the flag the three of them share. *)
Definition fillID (doc : Document.t) (updated : bool)
    : M (Document.t * bool) :=
  if String.eqb (Metadata.ID (Document.Metadata doc)) EmptyString
  then id <- RandID ;
       ret (Document.withMeta doc
              (Metadata.withID (Document.Metadata doc) id), true)
  else ret (doc, updated).

Definition fillDate (doc : Document.t) (updated : bool)
    : M (Document.t * bool) :=
  if Time.IsZero (Metadata.Date (Document.Metadata doc))
  then now <- Now ;
       ret (Document.withMeta doc
              (Metadata.withDate (Document.Metadata doc) (Time.toUTC now)),
            true)
  else ret (doc, updated).

Definition fillPath (doc : Document.t) (updated : bool)
    : M (Document.t * bool) :=
  if String.eqb (Metadata.Path (Document.Metadata doc)) EmptyString
  then p <- generatePath (Metadata.Title (Document.Metadata doc)) ;
       ret (Document.withMeta doc
              (Metadata.withPath (Document.Metadata doc) p), true)
  else ret (doc, updated).

Definition normalize (doc : Document.t) : M (Document.t * bool) :=
  du <- fillID doc false ;
  du <- fillDate (fst du) (snd du) ;
  fillPath (fst du) (snd du).

(** Lines 182-189: the front-matter block of the source text is replaced. *)
Definition rewriteFrontMatter (newMeta original : string) : result string :=
  let original := TrimPrefix original delim in
  let '(_, origDocument, ok) := Cut original delim in
  if negb ok then Err ErrInvalidMarkdown
  else Ok (delim +:+ newMeta +:+ delim +:+ origDocument).

(** Lines 173-204: the branch taken when [updated] is set. *)
Definition writeBack (path : string) (doc : Document.t)
    : M (result Document.t) :=
  if DocumentType.eqb (Document.Type_ doc) DocumentType.Markdown then
    match yamlMarshal (Document.Metadata doc) with
    | Err e => ret (Err e)
    | Ok newMeta =>
        match rewriteFrontMatter newMeta (Document.Markdown doc) with
        | Err e => ret (Err e)
        | Ok newDocument =>
            let doc := Document.withMarkdown doc newDocument in
            fStat <- Stat path ;
            match fStat with
            | Err e => ret (Err e)
            | Ok fmode =>
                r <- WriteFile path (Document.Markdown doc) fmode ;
                match r with
                | Err e => ret (Err e)
                | Ok _ => ret (Ok doc)
                end
            end
        end
    end
  else ret (Ok doc).

(** Lines 206-229: the post of the document is found or created, and
    brought up to date.  A post is reached through a pointer kept in the
    map under the document's ID, so updating the post updates that entry. *)
Definition mergePost (gc : GenerationContext.t) (path : string)
    (doc : Document.t) : M GenerationContext.t :=
  now <- Now ;
  match GenerationContext.DataStore gc with
  | None => panic "nil pointer dereference"
  | Some ds =>
      let id := Metadata.ID (Document.Metadata doc) in
      pp <-
        match mapaccess (DataStore.Posts ds) id with
        | Some p => ret (p, DataStore.Posts ds)
        | None =>
            let p := Post.mk id EmptyString EmptyString EmptyString
                             now now None (Some ∅) in
            match DataStore.Posts ds with
            | None => panic "assignment to entry in nil map"
            | Some m => ret (p, Some (<[id := p]> m))
            end
        end ;
      let '(post, posts) := pp in
      let hash := Document_Hash doc in
      let post := Post.mk (Post.ID post) path
                          (Metadata.Path (Document.Metadata doc))
                          (Post.Hash post) (Post.CreatedAt post)
                          (Post.UpdatedAt post) (Some doc)
                          (Post.Translated post) in
      let post :=
        if negb (String.eqb (Post.Hash post) hash)
        then Post.mk (Post.ID post) (Post.FilePath post) (Post.Path post)
                     hash (Post.CreatedAt post) now (Post.Main post)
                     (Post.Translated post)
        else post in
      ret (GenerationContext.mk
             (Some (DataStore.mk (insert id post <$> posts))))
  end.

Definition processMarkdownFile (gc : GenerationContext.t) (path : string)
    : M (result Document.t * GenerationContext.t) :=
  r <- ReadFile path ;
  match r with
  | Err e => ret (Err e, gc)
  | Ok bytes =>
      match parseMarkdown path bytes with
      | Err e => ret (Err e, gc)
      | Ok doc =>
          du <- normalize doc ;
          let '(doc, updated) := du in
          r <- (if (updated : bool) then writeBack path doc else ret (Ok doc)) ;
          match r with
          | Err e => ret (Err e, gc)
          | Ok doc =>
              gc' <- mergePost gc path doc ;
              ret (Ok doc, gc')
          end
      end
  end.

(** ** [generate] *)

Definition isMarkdownExt (path : string) : bool :=
  let e := ToLower unicodeLower (Ext path) in
  String.eqb e ".md" || String.eqb e ".markdown".

(** Lines 261-273: the loop over the listed paths; a failure of one file is
    logged and the loop goes on. *)
Fixpoint processFiles (gc : GenerationContext.t) (list : list string)
    : M GenerationContext.t :=
  match list with
  | nil => ret gc
  | path :: rest =>
      gc <- (if isMarkdownExt path
             then rg <- processMarkdownFile gc path ;
                  let '(r, gc') := rg in
                  match r with
                  | Err e => _ <- logErr path e ; ret gc'
                  | Ok _ => ret gc'
                  end
             else ret gc) ;
      processFiles gc rest
  end.

Definition generate (gc : GenerationContext.t)
    : M (result unit * GenerationContext.t) :=
  r <- siteTree ;
  match r with
  | Err e => ret (Err e, gc)
  | Ok list => gc <- processFiles gc list ; ret (Ok tt, gc)
  end.

(** ** [main] *)

(** Lines 283-346: the snapshot is read, or created when there is none.
    A [zstd] writer buffers what it is given and writes when it is closed;
    its bytes reach the file in one [Write]. *)
Definition load : M GenerationContext.t :=
  st <- Stat dbFile ;
  f <- match st with
       | Err e =>
           if negb (IsNotExist e)
           then fatal "failed to stat database file"
           else
             r <- OpenFile dbFile (mkFlags true false false) 420 ;
             match r with
             | Err _ => fatal "failed to create database file"
             | Ok f =>
                 r <- Write f (zstdCompress SpeedDefault "{}") ;
                 match r with
                 | Err _ => fatal "failed to close zstd writer for database file"
                 | Ok f =>
                     r <- Seek0 f ;
                     match r with
                     | Err _ => fatal "failed to seek to beginning of database file"
                     | Ok f => ret f
                     end
                 end
             end
       | Ok _ =>
           r <- OpenFile dbFile (mkFlags false false false) 420 ;
           match r with
           | Err _ => fatal "failed to open database file"
           | Ok f => ret f
           end
       end ;
  r <- ReadAll f ;
  match match r with Ok bytes => snapshotDecode bytes | Err e => Err e end with
  | Err _ => fatal "failed to decode database file"
  | Ok store =>
      r <- Close f ;
      match r with
      | Err _ => fatal "failed to close database file"
      | Ok _ =>
          let store :=
            match store with
            | None => DataStore.mk None
            | Some ds => ds
            end in
          let store :=
            match DataStore.Posts store with
            | None => DataStore.mk (Some ∅)
            | Some _ => store
            end in
          ret (GenerationContext.mk (Some store))
      end
  end.

(** Lines 350-379: the snapshot is written to a temporary file and renamed
    over the database file. *)
Definition save (gc : GenerationContext.t) : M unit :=
  r <- OpenFile (dbFile +:+ ".tmp") (mkFlags true true true) 420 ;
  match r with
  | Err _ => fatal "failed to create temporary database file"
  | Ok f =>
      match jsonMarshal (GenerationContext.DataStore gc) with
      | Err _ => fatal "failed to encode database file"
      | Ok js =>
          r <- Write f (zstdCompress SpeedBestCompression (js +:+ nl)) ;
          match r with
          | Err _ => fatal "failed to close zstd writer for database file"
          | Ok f =>
              r <- Close f ;
              match r with
              | Err _ => fatal "failed to close database file"
              | Ok _ =>
                  r <- Rename (dbFile +:+ ".tmp") dbFile ;
                  match r with
                  | Err _ => fatal "failed to rename temporary database file"
                  | Ok _ => ret tt
                  end
              end
          end
      end
  end.

Definition main : M unit :=
  gc <- load ;
  rg <- generate gc ;
  let '(_, gc) := rg in
  _ <- save gc ;
  match jsonMarshalIndent (GenerationContext.DataStore gc) with
  | Err _ => fatal "failed to marshal database file"
  | Ok _ => ret tt
  end.

End Program.

End Website.

Export Website.
Import GoStrings.


(* ===================================================================== *)
(** * Vocabulary of the properties *)
(* ===================================================================== *)

Module Spec.

(** [c] with the byte [a] replaced by [b]. *)
Definition subst1 (a b : ascii) (c : ascii) : ascii :=
  if Ascii.eqb c a then b else c.

(** A run of [n] hyphens. *)
Fixpoint hyphens (n : nat) : string :=
  match n with
  | O => EmptyString
  | S n' => String "-" (hyphens n')
  end.

(** Whether the last byte of [s] is a hyphen. *)
Fixpoint endsHyphen (s : string) : bool :=
  match s with
  | EmptyString => false
  | String c r =>
      match r with
      | EmptyString => Ascii.eqb c "-"
      | String _ _ => endsHyphen r
      end
  end.

(** What one pass [ReplaceAll(fp, k hyphens, "-")] leaves of a run of [n]
    hyphens: one hyphen for each full group of [k], and the remainder. *)
Definition pass (k n : nat) : nat := (n / k + n mod k)%nat.

(** The five passes of lines 91-95, on the length of a run. *)
Definition passes (n : nat) : nat :=
  pass 2 (pass 2 (pass 2 (pass 3 (pass 4 n)))).

(** The bytes lines 77-89 replace by a hyphen. *)
Definition unsafeByte (c : ascii) : bool :=
  match c with
  | " " | "/" | "{" | "}" | "|" | "\" | "^" | "~" | "[" | "]" | "'"
  | "034" | "`" => true
  | _ => false
  end%char.

Definition slugByte (c : ascii) : ascii :=
  if unsafeByte c then "-"%char else c.

(** Lines 71-74, 77-89 and 91-95 of [generatePath], by themselves. *)
Definition strip (title : string) : string :=
  trimSlashes (TrimPrefix title rootDir).

Definition substitute (fp : string) : string :=
  let fp := ReplaceAll fp " " "-" in
  let fp := ReplaceAll fp "/" "-" in
  let fp := ReplaceAll fp "{" "-" in
  let fp := ReplaceAll fp "}" "-" in
  let fp := ReplaceAll fp "|" "-" in
  let fp := ReplaceAll fp "\" "-" in
  let fp := ReplaceAll fp "^" "-" in
  let fp := ReplaceAll fp "~" "-" in
  let fp := ReplaceAll fp "[" "-" in
  let fp := ReplaceAll fp "]" "-" in
  let fp := ReplaceAll fp "'" "-" in
  let fp := ReplaceAll fp dquote "-" in
  ReplaceAll fp "`" "-".

Definition collapse (fp : string) : string :=
  let fp := ReplaceAll fp "----" "-" in
  let fp := ReplaceAll fp "---" "-" in
  let fp := ReplaceAll fp "--" "-" in
  let fp := ReplaceAll fp "--" "-" in
  ReplaceAll fp "--" "-".

Definition slug (unicodeLower : string -> string) (title : string) : string :=
  collapse (substitute (ToLower unicodeLower (strip title))).

(** The slug as the specification words it: whitespace of any kind, not
    only the space, becomes a hyphen. *)
Definition specSlugByte (c : ascii) : ascii :=
  if Ascii.is_space c || unsafeByte c then "-"%char else c.

Definition specSlug (unicodeLower : string -> string) (title : string)
    : string :=
  collapse (mapBytes specSlugByte (ToLower unicodeLower (strip title))).

(** The value of a hexadecimal digit. *)
Definition hexVal (c : ascii) : N :=
  match c with
  | "0" => 0 | "1" => 1 | "2" => 2 | "3" => 3 | "4" => 4 | "5" => 5
  | "6" => 6 | "7" => 7 | "8" => 8 | "9" => 9 | "a" => 10 | "b" => 11
  | "c" => 12 | "d" => 13 | "e" => 14 | _ => 15
  end%char%N.

(** Which of the three fields a parsed document lacks. *)
Definition idMissing (doc : Document.t) : bool :=
  String.eqb (Metadata.ID (Document.Metadata doc)) EmptyString.
Definition dateMissing (doc : Document.t) : bool :=
  Time.IsZero (Metadata.Date (Document.Metadata doc)).
Definition pathMissing (doc : Document.t) : bool :=
  String.eqb (Metadata.Path (Document.Metadata doc)) EmptyString.
Definition missing (doc : Document.t) : bool :=
  idMissing doc || dateMissing doc || pathMissing doc.

(** The document with exactly its missing fields filled in, from the
    environment [w]: the identifier from the next draw of entropy, the date
    from the next reading of the clock, the path from the title and the draw
    that follows the identifier's. *)
Definition normalized (unicodeLower : string -> string) (doc : Document.t)
    (w : World) : Document.t :=
  let m := Document.Metadata doc in
  Document.withMeta doc
    (Metadata.mk
       (if idMissing doc
        then EncodeToString (fit 16 (fst (entropy w (draws w))))
        else Metadata.ID m)
       (Metadata.Title m) (Metadata.Author m) (Metadata.Description m)
       (if dateMissing doc
        then Time.toUTC (clock w (ticks w))
        else Metadata.Date m)
       (if pathMissing doc
        then "/blog/posts/" +:+ slug unicodeLower (Metadata.Title m) +:+ "-"
             +:+ EncodeToString
                   (fit 4 (fst (entropy w (if idMissing doc
                                           then S (draws w) else draws w))))
        else Metadata.Path m)
       (Metadata.GoPackage m) (Metadata.Canonical m) (Metadata.Hidden m)).

(** The environment after normalisation: one reading of the clock for a
    missing date, one draw of entropy for a missing identifier and one for a
    missing path; nothing else moves. *)
Definition afterNormalize (doc : Document.t) (w : World) : World :=
  mkWorld (files w) (trace w) (faults w) (kill w) (clock w)
          (if dateMissing doc then S (ticks w) else ticks w)
          (entropy w)
          (let d := if idMissing doc then S (draws w) else draws w in
           if pathMissing doc then S d else d)
          (log w).

(** The post of a document after the merge: [old] is what the store held
    under the document's ID, [hash] the digest of the document, [now] the
    reading of the clock. *)
Definition mergedPost (hash : string) (old : option Post.t) (path : string)
    (doc : Document.t) (now : Time.t) : Post.t :=
  match old with
  | Some p =>
      Post.mk (Post.ID p) path (Metadata.Path (Document.Metadata doc))
              (if String.eqb (Post.Hash p) hash then Post.Hash p else hash)
              (Post.CreatedAt p)
              (if String.eqb (Post.Hash p) hash then Post.UpdatedAt p else now)
              (Some doc) (Post.Translated p)
  | None =>
      Post.mk (Metadata.ID (Document.Metadata doc)) path
              (Metadata.Path (Document.Metadata doc)) hash now now
              (Some doc) (Some ∅)
  end.

(** A store that is there, with the map [m]. *)
Definition storeOf (m : gmap string Post.t) : GenerationContext.t :=
  GenerationContext.mk (Some (DataStore.mk (Some m))).

(** What is left of [processMarkdownFile] once the file is read and parsed
    into [doc0], in the environment [w1] the read has left. *)
Definition afterParse (unicodeLower : string -> string)
    (blake3 : string -> list Byte.byte) (formatRFC3339 : Time.t -> string)
    (yamlMarshal : Metadata.t -> result string)
    (gc : GenerationContext.t) (path : string)
    (doc0 : Document.t) (w1 : World)
    : Outcome (result Document.t * GenerationContext.t) * World :=
  if idMissing doc0 && snd (entropy w1 (draws w1))
  then (Panic "failed to generate random ID", draw w1)
  else
    (r <- (if missing doc0
           then writeBack yamlMarshal path (normalized unicodeLower doc0 w1)
           else ret (Ok (normalized unicodeLower doc0 w1))) ;
     match r with
     | Err e => ret (Err e, gc)
     | Ok doc =>
         gc' <- mergePost blake3 formatRFC3339 gc path doc ;
         ret (Ok doc, gc')
     end) (afterNormalize doc0 w1).

(** The bytes that go into the two digests. *)
Definition Metadata_bytes (formatRFC3339 : Time.t -> string) (g : Metadata.t)
    : string :=
  Metadata.ID g +:+ Metadata.Title g +:+ Metadata.Author g
  +:+ Metadata.Description g +:+ formatRFC3339 (Metadata.Date g)
  +:+ Metadata.Path g +:+ Metadata.GoPackage g +:+ Metadata.Canonical g
  +:+ FormatBool (Metadata.Hidden g).

Definition Document_bytes (blake3 : string -> list Byte.byte)
    (formatRFC3339 : Time.t -> string) (g : Document.t) : string :=
  DocumentType.String (Document.Type_ g) +:+ Document.Markdown g
  +:+ Document.HTML g
  +:+ Metadata_Hash blake3 formatRFC3339 (Document.Metadata g).

(** The store [main] goes on with, from what the decoder left in
    [gc.DataStore]. *)
Definition loadedPosts (store : option DataStore.t) : gmap string Post.t :=
  match store with
  | Some (DataStore.mk (Some m)) => m
  | _ => ∅
  end.

(** The name of the temporary snapshot. *)
Definition tmpFile : string := dbFile +:+ ".tmp".

(** An outcome that is not a normal end. *)
Definition stopped {A} (o : Outcome A) : Prop :=
  match o with Done _ => False | _ => True end.

(** An environment where no system call fails by fault and nobody kills
    the process. *)
Definition quiet (w : World) : Prop :=
  kill w = None /\ forall n, faults w n = false.

End Spec.

Export Spec.

(* ===================================================================== *)
(** * Sample environments *)
(* ===================================================================== *)

Module Sample.

Definition tab : string := String "009" EmptyString.

(** A quiet environment: no file, no fault, nobody kills the process; the
    [n]-th reading of the clock is [1000 + n] seconds, local time, and the
    [n]-th draw of entropy is made of the byte [n]. *)
Definition byteOf (n : nat) : Byte.byte :=
  match Byte.of_nat n with Some b => b | None => Byte.xff end.

Definition world0 : World :=
  mkWorld ∅ nil (fun _ => false) None
          (fun n => Time.mk (1000 + Z.of_nat n) 0 Time.Local) O
          (fun n => (repeat (byteOf n) 16, false)) O nil.

Definition withFiles (fs : gmap string File) (w : World) : World :=
  setFiles w fs.

Definition withKill (n : nat) (w : World) : World :=
  mkWorld (files w) (trace w) (faults w) (Some n) (clock w) (ticks w)
          (entropy w) (draws w) (log w).

Definition withFaults (f : nat -> bool) (w : World) : World :=
  mkWorld (files w) (trace w) f (kill w) (clock w) (ticks w)
          (entropy w) (draws w) (log w).

(** The identity stands for [unicode.ToLower] where the text is ASCII. *)
Definition lower0 (s : string) : string := s.

(** Stand-ins for the libraries in the sample runs.  The digest is the
    text itself, so that different texts have different digests; the time
    is rendered as the low sixteen bits of its seconds, in hexadecimal. *)
Definition hash0 (s : string) : list Byte.byte := String.list_byte_of_string s.

Definition fmt0 (x : Time.t) : string :=
  EncodeToString
    (byteOf (Z.to_nat ((Time.sec x / 256) mod 256))
     :: byteOf (Z.to_nat (Time.sec x mod 256)) :: nil).

Definition yamlText (m : Metadata.t) : string :=
  "id: " +:+ Metadata.ID m +:+ nl +:+ "title: " +:+ Metadata.Title m +:+ nl
  +:+ "path: " +:+ Metadata.Path m +:+ nl.

Definition yaml0 (m : Metadata.t) : result string := Ok (yamlText m).

(** A source file that has a title and nothing else in its front matter,
    and the document the parser makes of it. *)
Definition src0 : string :=
  delim +:+ "title: Hello World" +:+ nl +:+ delim +:+ "body" +:+ nl.

Definition meta0 : Metadata.t :=
  Metadata.mk EmptyString "Hello World" EmptyString EmptyString Time.zero
              EmptyString EmptyString EmptyString false.

Definition doc0 : Document.t :=
  Document.mk DocumentType.Markdown src0 "<p>body</p>" meta0.

(** The same file after its first synchronisation in [world0]. *)
Definition id1 : string := "00000000000000000000000000000000".
Definition path1 : string := "/blog/posts/hello-world-01010101".

Definition meta1 : Metadata.t :=
  Metadata.mk id1 "Hello World" EmptyString EmptyString
              (Time.mk 1000 0 Time.UTC) path1 EmptyString EmptyString false.

Definition src1 : string :=
  delim +:+ yamlText meta1 +:+ delim +:+ "body" +:+ nl.

Definition doc1 : Document.t :=
  Document.mk DocumentType.Markdown src1 "<p>body</p>" meta1.

(** A file whose text does not start with a front-matter block but has a
    delimiter line further down, and one with no delimiter line at all. *)
Definition srcLate : string :=
  "Hello" +:+ nl +:+ delim +:+ "body" +:+ nl.

Definition docLate : Document.t :=
  Document.mk DocumentType.Markdown srcLate "<p>Hello</p>" meta0.

Definition srcPlain : string := "no front matter".

Definition docPlain : Document.t :=
  Document.mk DocumentType.Markdown srcPlain "<p>no front matter</p>" meta0.

(** An HTML document that lacks its three fields. *)
Definition srcHtml : string := "<p>page</p>".

Definition docHtml : Document.t :=
  Document.mk DocumentType.HTML EmptyString srcHtml meta0.

Definition parse0 (bytes : string) : result Document.t :=
  if String.eqb bytes src0 then Ok doc0
  else if String.eqb bytes src1 then Ok doc1
  else if String.eqb bytes srcLate then Ok docLate
  else if String.eqb bytes srcPlain then Ok docPlain
  else if String.eqb bytes srcHtml then Ok docHtml
  else Err (ErrExternal "cannot parse").

Definition fileA : string := "root/a.md".

Definition worldOf (bytes : string) : World :=
  withFiles {[ fileA := mkFile bytes 420 ]} world0.

Definition gc0 : GenerationContext.t := storeOf ∅.

Definition sync := processMarkdownFile lower0 hash0 fmt0 parse0 yaml0.

(** What a run of [sync] returned. *)
Definition gcAfter (r : Outcome (result Document.t * GenerationContext.t) * World)
    : GenerationContext.t :=
  match fst r with
  | Done (_, gc) => gc
  | _ => gc0
  end.

Definition docAfter (r : Outcome (result Document.t * GenerationContext.t) * World)
    : Document.t :=
  match fst r with
  | Done (Ok d, _) => d
  | _ => doc0
  end.

Definition postsOf (gc : GenerationContext.t) : gmap string Post.t :=
  loadedPosts (GenerationContext.DataStore gc).

(** The first synchronisation of [src0] into an empty store and the
    second, of the file the first has rewritten, into the store it left. *)
Definition run1 := sync gc0 fileA (worldOf src0).
Definition run2 := sync (gcAfter run1) fileA (snd run1).

Definition post1 : Post.t :=
  match postsOf (gcAfter run1) !! id1 with
  | Some p => p
  | None => Post.mk EmptyString EmptyString EmptyString EmptyString
                    Time.zero Time.zero None None
  end.

(** Stand-ins for the snapshot codecs: nothing is compressed, an empty
    object decodes to a store without a map, anything else is corrupt; the
    encoder writes the empty object whatever the store. *)
Definition zstd0 (l : Level) (s : string) : string := s.

Definition decode0 (bytes : string) : result (option DataStore.t) :=
  if String.eqb bytes "{}" then Ok (Some (DataStore.mk None))
  else Err (ErrExternal "corrupt snapshot").

Definition json0 (store : option DataStore.t) : result string := Ok "{}".

Definition tree0 : M (result (list string)) := ret (Ok (fileA :: nil)).

Definition load0 := load zstd0 decode0.
Definition save0 := save zstd0 json0.
Definition main0 :=
  main lower0 hash0 fmt0 parse0 yaml0 zstd0 decode0 json0 json0 tree0.

(** An environment whose snapshot is corrupt, and one where a temporary
    snapshot was left behind. *)
Definition worldCorrupt : World :=
  withFiles {[ dbFile := mkFile "garbage" 420 ]} world0.

Definition worldStale : World :=
  withFiles (<[ tmpFile := mkFile "half" 420 ]>
               {[ dbFile := mkFile "{}" 420 ]}) world0.

Definition worldSaved : World :=
  withFiles {[ dbFile := mkFile "old" 420 ]} world0.

(** Two metadata records, and two documents, that differ in their fields
    and agree on the bytes that are hashed. *)
Definition metaAB : Metadata.t :=
  Metadata.mk "ab" "c" EmptyString EmptyString Time.zero EmptyString
              EmptyString EmptyString false.

Definition metaA : Metadata.t :=
  Metadata.mk "a" "bc" EmptyString EmptyString Time.zero EmptyString
              EmptyString EmptyString false.

Definition docAB : Document.t :=
  Document.mk DocumentType.Markdown "ab" "c" meta0.

Definition docA : Document.t :=
  Document.mk DocumentType.Markdown "a" "bc" meta0.

(** A title with a tab in it. *)
Definition tabTitle : string := "a" +:+ tab +:+ "b".

End Sample.

(* ===================================================================== *)
(** * [copyFile] *)
(* ===================================================================== *)

Module Copy.

Import GoStrings.

(** [srcFile.WriteTo(dstFile)]: what the source holds from its offset to its
    end is read and written to the destination; nothing is written when
    there is nothing to write.  The copy is one read and one write here. *)
Definition WriteTo (src dst : Fd) : M (result unit) :=
  r <- ReadAll src ;
  match r with
  | Err e => ret (Err e)
  | Ok bytes =>
      if String.eqb bytes EmptyString then ret (Ok tt)
      else
        r <- Write dst bytes ;
        match r with
        | Err e => ret (Err e)
        | Ok _ => ret (Ok tt)
        end
  end.

(** Lines 50-68.  [os.Open] is [OpenFile] without a flag, [os.Create] is
    [OpenFile] with [O_CREATE] and [O_TRUNC] and the mode [0666]; the two
    deferred [Close] run when the function returns, the later one first, and
    what they return is dropped. *)
Definition copyFile (src dst : string) : M (result unit) :=
  r <- OpenFile src (mkFlags false false false) 0 ;
  match r with
  | Err e => ret (Err e)
  | Ok srcFile =>
      r <- OpenFile dst (mkFlags true true false) 438 ;
      match r with
      | Err e => _ <- Close srcFile ; ret (Err e)
      | Ok dstFile =>
          r <- WriteTo srcFile dstFile ;
          _ <- Close dstFile ;
          _ <- Close srcFile ;
          match r with
          | Err e => ret (Err e)
          | Ok _ => ret (Ok tt)
          end
      end
  end.

End Copy.

Export Copy.

(* ===================================================================== *)
(** * More vocabulary *)
(* ===================================================================== *)

Module Spec2.

Import GoStrings.

(** Every byte of [s] passes the test [P]. *)
Fixpoint allBytes (P : ascii -> bool) (s : string) : bool :=
  match s with
  | EmptyString => true
  | String c s' => P c && allBytes P s'
  end.

Definition isHexDigit (c : ascii) : bool :=
  match c with
  | "0" | "1" | "2" | "3" | "4" | "5" | "6" | "7" | "8" | "9"
  | "a" | "b" | "c" | "d" | "e" | "f" => true
  | _ => false
  end%char.

Definition safeByte (c : ascii) : bool := negb (unsafeByte c).

Definition lowByte (c : ascii) : bool := isASCIIbyte c && negb (isUpper c).

(** [n] slashes in a row. *)
Fixpoint slashes (n : nat) : string :=
  match n with
  | O => EmptyString
  | S n' => String "/" (slashes n')
  end.

(** The runs of hyphens up to this length are made one hyphen by lines
    91-95. *)
Definition collapseBound : nat := 82.

(** What a post keeps through a synchronisation. *)
Definition samePost (p p' : Post.t) : Prop :=
  Post.ID p' = Post.ID p /\ Post.CreatedAt p' = Post.CreatedAt p
  /\ Post.Translated p' = Post.Translated p.

(** An outcome that is a normal end or the process killed: neither
    [log.Fatal] nor a panic. *)
Definition calm {A} (o : Outcome A) : Prop :=
  match o with Done _ | Killed => True | _ => False end.

End Spec2.

Export Spec2.

Module Sample2.

Import Sample.

Definition fileB : string := "root/b.md".
Definition fileTxt : string := "root/notes.txt".

(** Two files: the sample source and one the parser rejects. *)
Definition worldTwo : World :=
  withFiles (<[ fileB := mkFile "garbled" 420 ]>
               {[ fileA := mkFile src0 420 ]}) world0.

(** A source tree that cannot be listed. *)
Definition treeFails : M (result (list string)) :=
  ret (Err (ErrExternal "cannot walk")).

(** Codecs that read back what they wrote for the empty store. *)
Definition jsonOf (store : option DataStore.t) : result string :=
  match store with
  | Some (DataStore.mk (Some _)) => Ok "{posts}"
  | _ => Ok "{}"
  end.

Definition decodeOf (bytes : string) : result (option DataStore.t) :=
  if String.eqb bytes "{}" then Ok (Some (DataStore.mk None))
  else if String.eqb bytes ("{posts}" +:+ nl)
       then Ok (Some (DataStore.mk (Some ∅)))
       else Err (ErrExternal "corrupt snapshot").

Definition worldEmptyDb : World :=
  withFiles {[ dbFile := mkFile "{}" 420 ]} world0.

Definition processFiles0 := processFiles lower0 hash0 fmt0 parse0 yaml0.

(** A store that is not there. *)
Definition gcNil : GenerationContext.t := GenerationContext.mk None.

(** The merge of the synchronised sample document into an empty store. *)
Definition merge0 := mergePost hash0 fmt0.
Definition merged1 := merge0 gc0 fileA doc1 world0.
Definition gcMerged : GenerationContext.t :=
  match fst merged1 with
  | Done g => g
  | _ => gc0
  end.

(** The loop over the sample file, after its first synchronisation. *)
Definition loop2 := processFiles0 (gcAfter run1) (fileA :: nil) (snd run1).
Definition gcLoop2 : GenerationContext.t :=
  match fst loop2 with
  | Done g => g
  | _ => gc0
  end.

(** A serialiser that fails. *)
Definition jsonFails (store : option DataStore.t) : result string :=
  Err (ErrExternal "cannot marshal").

Definition generate0 := generate lower0 hash0 fmt0 parse0 yaml0 tree0.

(** Runs of [main]: with a source tree that cannot be listed, and with a
    last serialisation that fails. *)
Definition mainNoTree :=
  main lower0 hash0 fmt0 parse0 yaml0 zstd0 decode0 json0 json0 treeFails.
Definition mainNoPrint :=
  main lower0 hash0 fmt0 parse0 yaml0 zstd0 decode0 json0 jsonFails tree0.

(** An environment whose entropy source fails. *)
Definition worldNoEntropy : World :=
  mkWorld ∅ nil (fun _ => false) None
          (fun n => Time.mk (1000 + Z.of_nat n) 0 Time.Local) O
          (fun n => (nil, true)) O nil.

End Sample2.
(* ===================================================================== *)
(** * Facts about the string functions *)
(* ===================================================================== *)

#[local] Arguments String.append !s1 s2 /.
#[local] Arguments GoStrings.HasPrefix : simpl never.

Module GoStringsFacts.

Lemma append_assoc (a b c : string) : (a +:+ b) +:+ c = a +:+ (b +:+ c).
Proof. induction a as [|x a IH]; simpl; [reflexivity | now rewrite IH]. Qed.

Lemma append_nil_r (a : string) : a +:+ EmptyString = a.
Proof. induction a as [|x a IH]; simpl; [reflexivity | now rewrite IH]. Qed.

Lemma append_inv_head (a b c : string) : a +:+ b = a +:+ c -> b = c.
Proof.
  induction a as [|x a IH]; simpl; intros H; [exact H |].
  injection H as H. now apply IH.
Qed.

Lemma length_append (a b : string) :
  String.length (a +:+ b) = (String.length a + String.length b)%nat.
Proof. induction a as [|x a IH]; simpl; [reflexivity | now rewrite IH]. Qed.

Lemma take_drop (n : nat) (s : string) : take n s +:+ drop n s = s.
Proof.
  revert s; induction n as [|n IH]; intros [|c s]; simpl; try reflexivity.
  now rewrite IH.
Qed.

Lemma drop_append (a b : string) : drop (String.length a) (a +:+ b) = b.
Proof. induction a as [|x a IH]; simpl; [now destruct b | exact IH]. Qed.

Lemma take_append (a b : string) : take (String.length a) (a +:+ b) = a.
Proof. induction a as [|x a IH]; simpl; [now destruct b | now rewrite IH]. Qed.

Lemma HasPrefix_nil (s : string) : HasPrefix s EmptyString = true.
Proof. now destruct s. Qed.

Lemma HasPrefix_cons (c d : ascii) (s p : string) :
  HasPrefix (String c s) (String d p) = Ascii.eqb c d && HasPrefix s p.
Proof.
  unfold HasPrefix; simpl.
  destruct (ascii_dec d c) as [->|Hne].
  - now rewrite Ascii.eqb_refl.
  - apply not_eq_sym in Hne. apply Ascii.eqb_neq in Hne. now rewrite Hne.
Qed.

Lemma HasPrefix_empty (d : ascii) (p : string) :
  HasPrefix EmptyString (String d p) = false.
Proof. reflexivity. Qed.

Lemma HasPrefix_append (p s : string) : HasPrefix (p +:+ s) p = true.
Proof.
  induction p as [|d p IH]; simpl; [apply HasPrefix_nil |].
  now rewrite HasPrefix_cons, Ascii.eqb_refl, IH.
Qed.

Lemma HasPrefix_split (s p : string) :
  HasPrefix s p = true -> s = p +:+ drop (String.length p) s.
Proof.
  revert s; induction p as [|d p IH]; intros s H; simpl.
  - now destruct s.
  - destruct s as [|c s]; [discriminate |].
    rewrite HasPrefix_cons in H. apply andb_true_iff in H as [Hc Hp].
    apply Ascii.eqb_eq in Hc as ->. simpl. f_equal. now apply IH.
Qed.

(** ** [Index] and [Cut] *)

Lemma Index_lower (s sep : string) : -1 <= Index s sep.
Proof.
  induction s as [|c s IH]; simpl.
  - destruct (HasPrefix EmptyString sep); lia.
  - destruct (HasPrefix (String c s) sep); [lia |].
    destruct (Z.ltb_spec (Index s sep) 0); lia.
Qed.

Lemma Index_split (s sep : string) :
  0 <= Index s sep ->
  s = take (Z.to_nat (Index s sep)) s +:+ sep
        +:+ drop (Z.to_nat (Index s sep + len sep)) s.
Proof.
  unfold len. induction s as [|c s IH]; simpl.
  - destruct (HasPrefix EmptyString sep) eqn:Hp; [| lia].
    intros _. destruct sep; [reflexivity | discriminate].
  - destruct (HasPrefix (String c s) sep) eqn:Hp.
    + intros _. simpl. rewrite Z.add_0_l, Nat2Z.id. now apply HasPrefix_split.
    + destruct (Z.ltb_spec (Index s sep) 0) as [Hlt|Hge]; [lia |].
      intros _. specialize (IH Hge).
      replace (Z.to_nat (Index s sep + 1)) with (S (Z.to_nat (Index s sep)))
        by lia.
      replace (Z.to_nat (Index s sep + 1 + Z.of_nat (String.length sep)))
        with (S (Z.to_nat (Index s sep + Z.of_nat (String.length sep))))
        by lia.
      simpl. f_equal. exact IH.
Qed.

(** [Index] finds the first instance: no instance starts before it. *)
Lemma Index_first (a sep b : string) :
  0 <= Index (a +:+ sep +:+ b) sep <= len a.
Proof.
  unfold len. induction a as [|c a IH]; simpl.
  - assert (H : Index (sep +:+ b) sep = 0).
    { destruct (sep +:+ b) eqn:E; simpl; rewrite <- E, HasPrefix_append;
        reflexivity. }
    rewrite H. lia.
  - destruct (HasPrefix (String c (a +:+ sep +:+ b)) sep); [lia |].
    destruct (Z.ltb_spec (Index (a +:+ sep +:+ b) sep) 0); lia.
Qed.

Lemma Index_absent (s sep : string) :
  Index s sep < 0 <-> (forall a b, s <> a +:+ sep +:+ b).
Proof.
  split.
  - intros H a b ->. pose proof (Index_first a sep b). lia.
  - intros H. destruct (Z.ltb_spec (Index s sep) 0) as [Hlt|Hge]; [exact Hlt |].
    exfalso. eapply H. now apply Index_split.
Qed.

Lemma Cut_found (s sep before after : string) :
  Cut s sep = (before, after, true) ->
  s = before +:+ sep +:+ after /\
  forall a b, s = a +:+ sep +:+ b -> (String.length before <= String.length a)%nat.
Proof.
  unfold Cut. destruct (Z.leb_spec 0 (Index s sep)) as [Hge|Hlt];
    [| discriminate].
  intros H. injection H as <- <-. split; [now apply Index_split |].
  intros a b E. pose proof (Index_first a sep b) as Hf. rewrite <- E in Hf.
  unfold len in Hf.
  assert (Hl : (String.length (take (Z.to_nat (Index s sep)) s)
                <= Z.to_nat (Index s sep))%nat).
  { generalize (Z.to_nat (Index s sep)). clear.
    intros n; revert s; induction n as [|n IH]; intros [|c s]; simpl;
      try lia. specialize (IH s). lia. }
  lia.
Qed.

Lemma Cut_missing (s sep : string) :
  snd (Cut s sep) = false <-> (forall a b, s <> a +:+ sep +:+ b).
Proof.
  rewrite <- Index_absent. unfold Cut.
  destruct (Z.leb_spec 0 (Index s sep)); simpl; split; intros; try lia;
    try discriminate; reflexivity.
Qed.

(** ** [ReplaceAll] of one byte by another *)

Lemma ReplaceAll_byte (a b : ascii) (s : string) :
  ReplaceAll s (String a EmptyString) (String b EmptyString)
  = mapBytes (subst1 a b) s.
Proof.
  unfold ReplaceAll.
  destruct (String.eqb_spec (String a EmptyString) (String b EmptyString))
    as [E|_].
  - injection E as <-. induction s as [|c s IH]; simpl; [reflexivity |].
    unfold subst1 at 1. rewrite <- IH.
    destruct (Ascii.eqb_spec c a) as [->|]; reflexivity.
  - induction s as [|c s IH]; [reflexivity |].
    cbn [scan String.length Nat.pred mapBytes].
    rewrite HasPrefix_cons, HasPrefix_nil, andb_true_r. unfold subst1 at 1.
    destruct (Ascii.eqb c a); simpl; now rewrite IH.
Qed.

Lemma mapBytes_compose (f g : ascii -> ascii) (s : string) :
  mapBytes f (mapBytes g s) = mapBytes (fun c => f (g c)) s.
Proof. induction s as [|c s IH]; simpl; [reflexivity | now rewrite IH]. Qed.

Lemma mapBytes_ext (f g : ascii -> ascii) (s : string) :
  (forall c, f c = g c) -> mapBytes f s = mapBytes g s.
Proof.
  intros H. induction s as [|c s IH]; simpl; [reflexivity |].
  now rewrite H, IH.
Qed.

End GoStringsFacts.

(* ===================================================================== *)
(** * The path generator *)
(* ===================================================================== *)

Module PathFacts.

Import GoStringsFacts.

Lemma substitute_bytes (fp : string) : substitute fp = mapBytes slugByte fp.
Proof.
  unfold substitute, dquote. rewrite !ReplaceAll_byte, !mapBytes_compose.
  apply mapBytes_ext.
  intros [[] [] [] [] [] [] [] []]; reflexivity.
Qed.

Lemma length_hyphens (n : nat) : String.length (hyphens n) = n.
Proof. induction n as [|n IH]; simpl; [reflexivity | now rewrite IH]. Qed.

Lemma hyphens_add (n m : nat) : hyphens (n + m) = hyphens n +:+ hyphens m.
Proof. induction n as [|n IH]; simpl; [reflexivity | now rewrite IH]. Qed.

Lemma no_hyphen_head (c : ascii) (r : string) :
  HasPrefix (String c r) "-" = false -> Ascii.eqb c "-" = false.
Proof. rewrite HasPrefix_cons, HasPrefix_nil, andb_true_r. tauto. Qed.

(** A run of [n] hyphens that nothing prolongs starts with an instance of
    [k] hyphens exactly when [k <= n]. *)
Lemma HasPrefix_run (n k : nat) (rest : string) :
  HasPrefix rest "-" = false ->
  HasPrefix (hyphens n +:+ rest) (hyphens k) = (k <=? n)%nat.
Proof.
  intros Hr. revert k; induction n as [|n IH]; intros [|k]; simpl;
    try apply HasPrefix_nil.
  - destruct rest as [|c r]; [reflexivity |].
    rewrite HasPrefix_cons, (no_hyphen_head _ _ Hr). reflexivity.
  - rewrite HasPrefix_cons, Ascii.eqb_refl. simpl. apply IH.
Qed.

Lemma scan_skip (old new a s : string) (j : nat) :
  scan old new (String.length a + j) (a +:+ s) = scan old new j s.
Proof. induction a as [|c a IH]; simpl; [reflexivity | exact IH]. Qed.

Section Pass.

(** One pass with a pattern of [S k] hyphens. *)
Variable k : nat.
Let old := hyphens (S k).
Let new : string := "-".

Lemma scan_run (n : nat) (rest : string) :
  HasPrefix rest "-" = false ->
  scan old new O (hyphens n +:+ rest)
  = hyphens (pass (S k) n) +:+ scan old new O rest.
Proof.
  subst old new. intros Hr. induction n as [n IH] using lt_wf_ind.
  destruct n as [|m].
  { unfold pass. rewrite Nat.Div0.div_0_l, Nat.Div0.mod_0_l. reflexivity. }
  change (hyphens (S m) +:+ rest) with (String "-" (hyphens m +:+ rest)).
  cbn [scan].
  change (String "-" (hyphens m +:+ rest)) with (hyphens (S m) +:+ rest).
  rewrite (HasPrefix_run (S m) (S k) rest Hr), length_hyphens.
  cbn [Nat.pred].
  destruct (Nat.leb_spec (S k) (S m)) as [Hle|Hgt].
  - replace m with (k + (m - k))%nat at 1 by lia.
    rewrite hyphens_add, append_assoc.
    rewrite <- (length_hyphens k) at 2.
    rewrite <- (Nat.add_0_r (String.length (hyphens k))).
    rewrite scan_skip, (IH (m - k)%nat) by lia.
    unfold pass.
    replace (S m) with ((m - k) + 1 * S k)%nat at 1 2 by lia.
    rewrite Nat.div_add, Nat.Div0.mod_add by lia.
    replace ((m - k) / S k + 1 + (m - k) mod S k)%nat
      with (S ((m - k) / S k + (m - k) mod S k)) by lia.
    reflexivity.
  - rewrite (IH m) by lia. unfold pass.
    rewrite (Nat.div_small m), (Nat.mod_small m) by lia.
    rewrite (Nat.div_small (S m)), (Nat.mod_small (S m)) by lia.
    reflexivity.
Qed.

(** A text whose last byte is not a hyphen holds its instances of the
    pattern entirely. *)
Lemma HasPrefix_inside (pre rest : string) (n : nat) :
  pre <> EmptyString -> endsHyphen pre = false ->
  HasPrefix (pre +:+ rest) (hyphens n) = HasPrefix pre (hyphens n).
Proof.
  revert n; induction pre as [|c pre IH]; intros n Hne He; [congruence |].
  destruct n as [|n]; [now rewrite !HasPrefix_nil |].
  cbn [hyphens String.append]. rewrite !HasPrefix_cons.
  destruct pre as [|d pre].
  - simpl in He. rewrite He. reflexivity.
  - f_equal. apply IH; [discriminate | exact He].
Qed.

Lemma prefix_shorter (pre : string) (n : nat) :
  pre <> EmptyString -> endsHyphen pre = false ->
  HasPrefix pre (hyphens n) = true -> (n < String.length pre)%nat.
Proof.
  revert n; induction pre as [|c pre IH]; intros n Hne He Hp; [congruence |].
  destruct n as [|n]; [simpl; lia |].
  cbn [hyphens] in Hp. rewrite HasPrefix_cons in Hp.
  apply andb_true_iff in Hp as [Hc Hp].
  destruct pre as [|d pre].
  - simpl in He. congruence.
  - specialize (IH n ltac:(discriminate) He Hp). simpl in *. lia.
Qed.

Lemma scan_inside (pre rest : string) (j : nat) :
  pre <> EmptyString -> endsHyphen pre = false ->
  (j < String.length pre)%nat ->
  scan old new j (pre +:+ rest) = scan old new j pre +:+ scan old new O rest
  /\ scan old new j pre <> EmptyString
  /\ endsHyphen (scan old new j pre) = false.
Proof.
  subst old new.
  revert j; induction pre as [|c pre IH]; intros j Hne He Hj; [congruence |].
  assert (Htail : pre <> EmptyString -> endsHyphen pre = false).
  { destruct pre; [congruence | intros _; exact He]. }
  destruct j as [|j].
  - cbn [scan String.append].
    change (String c (pre +:+ rest)) with (String c pre +:+ rest).
    rewrite (HasPrefix_inside (String c pre) rest (S k) Hne He).
    rewrite length_hyphens. cbn [Nat.pred].
    destruct (HasPrefix (String c pre) (hyphens (S k))) eqn:Hp.
    + pose proof (prefix_shorter _ _ Hne He Hp) as Hlen.
      assert (Hpre : pre <> EmptyString)
        by (destruct pre; [simpl in Hlen; lia | discriminate]).
      destruct (IH k Hpre (Htail Hpre) ltac:(simpl in Hlen; lia))
        as (E & N & H).
      rewrite E. cbn [String.append].
      split; [reflexivity |]. split; [discriminate |].
      cbn [endsHyphen].
      destruct (scan (hyphens (S k)) "-" k pre); [congruence | exact H].
    + destruct pre as [|d pre].
      * cbn [scan String.append endsHyphen]. simpl in He.
        split; [reflexivity |]. split; [discriminate | exact He].
      * destruct (IH O ltac:(discriminate) He ltac:(simpl; lia))
          as (E & N & H).
        rewrite E. cbn [String.append].
        split; [reflexivity |]. split; [discriminate |].
        cbn [endsHyphen].
        destruct (scan (hyphens (S k)) "-" 0 (String d pre));
          [congruence | exact H].
  - cbn [scan String.append]. simpl in Hj.
    assert (Hpre : pre <> EmptyString)
      by (destruct pre; [simpl in Hj; lia | discriminate]).
    apply IH; [exact Hpre | exact (Htail Hpre) | lia].
Qed.

Lemma scan_start (post : string) :
  HasPrefix post "-" = false -> HasPrefix (scan old new O post) "-" = false.
Proof.
  subst old new.
  destruct post as [|c r]; [reflexivity |]. intros H.
  pose proof (no_hyphen_head _ _ H) as Hc. cbn [scan hyphens].
  rewrite HasPrefix_cons, Hc. cbn [andb].
  rewrite HasPrefix_cons, Hc. reflexivity.
Qed.

(** The pass on a run of [n] hyphens between a text that does not end with
    a hyphen and one that does not start with one. *)
Lemma scan_between (pre post : string) (n : nat) :
  endsHyphen pre = false -> HasPrefix post "-" = false ->
  scan old new O (pre +:+ hyphens n +:+ post)
  = scan old new O pre +:+ hyphens (pass (S k) n) +:+ scan old new O post
  /\ endsHyphen (scan old new O pre) = false
  /\ HasPrefix (scan old new O post) "-" = false.
Proof.
  intros He Hp. destruct pre as [|c pre].
  - cbn [String.append scan]. rewrite (scan_run n post Hp).
    repeat split; trivial. now apply scan_start.
  - destruct (scan_inside (String c pre) (hyphens n +:+ post) O
                ltac:(discriminate) He ltac:(simpl; lia)) as (E & _ & H).
    rewrite E, (scan_run n post Hp). repeat split; trivial.
    now apply scan_start.
Qed.

End Pass.

End PathFacts.

Module GeneratePath.

Import GoStringsFacts PathFacts.

Lemma ReplaceAll_run (k : nat) (s : string) :
  ReplaceAll s (hyphens (S (S k))) "-" = scan (hyphens (S (S k))) "-" O s.
Proof. reflexivity. Qed.

(** The loop of lines 72-74, unrolled once. *)
Lemma trimSlashes_loop (fp : string) :
  trimSlashes fp
  = if HasPrefix fp "/" then trimSlashes (TrimPrefix fp "/") else fp.
Proof.
  destruct fp as [|c r]; [reflexivity |].
  unfold TrimPrefix. rewrite HasPrefix_cons, HasPrefix_nil, andb_true_r.
  simpl. destruct (Ascii.eqb c "/"); reflexivity.
Qed.

Lemma trimSlashes_done (fp : string) : HasPrefix (trimSlashes fp) "/" = false.
Proof.
  induction fp as [|c r IH]; [reflexivity |]. simpl.
  destruct (Ascii.eqb c "/") eqn:E; [exact IH |].
  now rewrite HasPrefix_cons, E.
Qed.

(** Lines 91-95 on a run of [n] hyphens standing between a text that does
    not end with a hyphen and one that does not start with one. *)
Lemma collapse_between (pre post : string) (n : nat) :
  endsHyphen pre = false -> HasPrefix post "-" = false ->
  collapse (pre +:+ hyphens n +:+ post)
  = collapse pre +:+ hyphens (passes n) +:+ collapse post.
Proof.
  intros He Hp. unfold collapse, passes.
  change "----" with (hyphens 4). change "---" with (hyphens 3).
  change "--" with (hyphens 2).
  rewrite !ReplaceAll_run.
  destruct (scan_between 3 pre post n He Hp) as (E1 & He1 & Hp1).
  rewrite E1.
  destruct (scan_between 2 _ _ (pass 4 n) He1 Hp1) as (E2 & He2 & Hp2).
  rewrite E2.
  destruct (scan_between 1 _ _ (pass 3 (pass 4 n)) He2 Hp2)
    as (E3 & He3 & Hp3).
  rewrite E3.
  destruct (scan_between 1 _ _ (pass 2 (pass 3 (pass 4 n))) He3 Hp3)
    as (E4 & He4 & Hp4).
  rewrite E4.
  destruct (scan_between 1 _ _ (pass 2 (pass 2 (pass 3 (pass 4 n)))) He4 Hp4)
    as (E5 & _ & _).
  rewrite E5. reflexivity.
Qed.

Lemma hexVal_high (x : Byte.byte) :
  hexVal (hexDigit (N.div (Byte.to_N x) 16)) = N.div (Byte.to_N x) 16.
Proof. destruct x; reflexivity. Qed.

Lemma hexVal_low (x : Byte.byte) :
  hexVal (hexDigit (N.modulo (Byte.to_N x) 16)) = N.modulo (Byte.to_N x) 16.
Proof. destruct x; reflexivity. Qed.

Lemma EncodeToString_inj (a b : list Byte.byte) :
  EncodeToString a = EncodeToString b -> a = b.
Proof.
  revert b; induction a as [|x a IH]; intros [|y b] H; simpl in H;
    try discriminate; [reflexivity |].
  injection H as Hh Hl Ht. f_equal; [| now apply IH].
  apply (f_equal hexVal) in Hh, Hl. rewrite !hexVal_high in Hh.
  rewrite !hexVal_low in Hl.
  assert (E : Byte.to_N x = Byte.to_N y).
  { rewrite (N.div_mod (Byte.to_N x) 16), (N.div_mod (Byte.to_N y) 16)
      by discriminate. now rewrite Hh, Hl. }
  apply (f_equal Byte.of_N) in E. rewrite !Byte.of_to_N in E.
  now injection E.
Qed.

Section WithLower.

Variable unicodeLower : string -> string.

(** What [generatePath] returns and what it does to the environment: it
    cannot end otherwise, whatever [rand.Read] answers. *)
Lemma generatePath_run (title : string) (w : World) :
  generatePath unicodeLower title w
  = (Done ("/blog/posts/" +:+ slug unicodeLower title +:+ "-"
           +:+ EncodeToString (fit 4 (fst (entropy w (draws w))))),
     draw w).
Proof.
  unfold generatePath, bind, randRead.
  destruct (entropy w (draws w)) as [bs failed]. reflexivity.
Qed.

Lemma length_EncodeToString (b : list Byte.byte) :
  String.length (EncodeToString b) = (2 * length b)%nat.
Proof. induction b as [|x b IH]; simpl; [reflexivity | rewrite IH; lia]. Qed.

Lemma length_fit4 (bs : list Byte.byte) : length (fit 4 bs) = 4%nat.
Proof.
  unfold fit. rewrite length_firstn, length_app, repeat_length. lia.
Qed.

(** C7, as amended.  [generatePath] always returns, whatever the title and
    whatever [rand.Read] answers, the text [/blog/posts/], the slug, a
    hyphen and the eight hexadecimal digits of four random bytes.  The slug
    is the title without a leading [root] and then without leading slashes,
    in lower case, with every space and every slash, brace, vertical bar,
    backslash, caret, tilde, square bracket, single quote, double quote and
    backtick turned into a hyphen (other white space, such as a tab, stays),
    and with each run of two to four hyphens that stands alone made one
    hyphen.  Two calls for one title give different paths
    when the random bytes differ. *)
Theorem generatePath_shape (title : string) (w : World) :
  let suffix (v : World) := EncodeToString (fit 4 (fst (entropy v (draws v)))) in
  generatePath unicodeLower title w
  = (Done ("/blog/posts/" +:+ slug unicodeLower title +:+ "-" +:+ suffix w),
     draw w)
  /\ String.length (suffix w) = 8%nat
  /\ slug unicodeLower title
     = collapse (mapBytes slugByte (ToLower unicodeLower (strip title)))
  /\ strip title = trimSlashes (TrimPrefix title rootDir)
  /\ HasPrefix (strip title) "/" = false
  /\ (isASCII (strip title) = true ->
      ToLower unicodeLower (strip title) = mapBytes lowerByte (strip title))
  /\ (forall pre post n,
        (2 <= n <= 4)%nat ->
        endsHyphen pre = false -> HasPrefix post "-" = false ->
        collapse (pre +:+ hyphens n +:+ post)
        = collapse pre +:+ "-" +:+ collapse post)
  /\ (fit 4 (fst (entropy w (draws w)))
      <> fit 4 (fst (entropy w (S (draws w)))) ->
      fst (generatePath unicodeLower title w)
      <> fst (generatePath unicodeLower title
                (snd (generatePath unicodeLower title w))))
  /\ fst (generatePath unicodeLower "Hello World" w)
     = Done ("/blog/posts/hello-world-" +:+ suffix w).
Proof.
  intros suffix. split; [apply generatePath_run |].
  split; [subst suffix; cbn beta;
          now rewrite length_EncodeToString, length_fit4 |].
  split; [unfold slug; now rewrite substitute_bytes |].
  split; [reflexivity |].
  split; [apply trimSlashes_done |].
  split; [intros H; unfold ToLower; now rewrite H |].
  split; [| split].
  - intros pre post n Hn He Hp. rewrite (collapse_between pre post n He Hp).
    assert (n = 2 \/ n = 3 \/ n = 4)%nat as [-> | [-> | ->]] by lia;
      reflexivity.
  - intros Hne. rewrite !generatePath_run. cbn [fst snd].
    intros H. injection H as H. apply Hne.
    apply append_inv_head in H. injection H as H.
    now apply EncodeToString_inj.
  - rewrite generatePath_run. reflexivity.
Qed.

End WithLower.

End GeneratePath.

(* ===================================================================== *)
(** * System calls *)
(* ===================================================================== *)

Module OsFacts.

(** The three ways a system call goes. *)
Lemma syscall_cases {A} (c : SysCall)
    (act : gmap string File -> result A * gmap string File) (w : World) :
  (kill w = Some O /\ syscall c act w = (Killed, w))
  \/ (kill w <> Some O /\ faults w (length (trace w)) = true
      /\ syscall c act w = (Done (Err ErrIO), enter w c))
  \/ (kill w <> Some O /\ faults w (length (trace w)) = false
      /\ syscall c act w
         = (Done (fst (act (files w))),
            setFiles (enter w c) (snd (act (files w))))).
Proof.
  unfold syscall. destruct (kill w) as [[|n]|] eqn:Hk;
    [left; split; reflexivity | right .. ];
    (destruct (faults w (length (trace w)));
     [left | right]; repeat split; try discriminate;
     destruct (act (files w)); reflexivity).
Qed.

(** A system call leaves the clock, the entropy and the log alone, and
    adds at most itself to the trace. *)
Lemma syscall_frame {A} (c : SysCall)
    (act : gmap string File -> result A * gmap string File)
    (w w' : World) (o : Outcome (result A)) :
  syscall c act w = (o, w') ->
  ticks w' = ticks w /\ draws w' = draws w /\ clock w' = clock w
  /\ entropy w' = entropy w /\ log w' = log w /\ faults w' = faults w
  /\ (trace w' = trace w \/ trace w' = c :: trace w).
Proof.
  intros H. destruct (syscall_cases c act w)
    as [(_ & E) | [(_ & _ & E) | (_ & _ & E)]];
    rewrite E in H; injection H as <- <-; simpl; tauto.
Qed.

Lemma syscall_readonly {A} (c : SysCall)
    (act : gmap string File -> result A * gmap string File)
    (w w' : World) (o : Outcome (result A)) :
  (forall fs, snd (act fs) = fs) ->
  syscall c act w = (o, w') -> files w' = files w.
Proof.
  intros Hro H. destruct (syscall_cases c act w)
    as [(_ & E) | [(_ & _ & E) | (_ & _ & E)]];
    rewrite E in H; injection H as <- <-; simpl; auto.
Qed.

Lemma syscall_quiet {A} (c : SysCall)
    (act : gmap string File -> result A * gmap string File) (w : World) :
  kill w = None -> faults w (length (trace w)) = false ->
  syscall c act w
  = (Done (fst (act (files w))), setFiles (enter w c) (snd (act (files w)))).
Proof.
  intros Hk Hf. unfold syscall. rewrite Hk, Hf.
  now destruct (act (files w)).
Qed.

Lemma ReadFile_files (path : string) (w w' : World) o :
  ReadFile path w = (o, w') -> files w' = files w.
Proof.
  apply syscall_readonly. intros fs. now destruct (fs !! path).
Qed.

Lemma Stat_files (path : string) (w w' : World) o :
  Stat path w = (o, w') -> files w' = files w.
Proof.
  apply syscall_readonly. intros fs. now destruct (fs !! path).
Qed.

Lemma ReadFile_ok (path bytes : string) (w w' : World) :
  ReadFile path w = (Done (Ok bytes), w') ->
  w' = enter w (CReadFile path)
  /\ exists f, files w !! path = Some f /\ data f = bytes.
Proof.
  unfold ReadFile. intros H.
  destruct (syscall_cases (CReadFile path)
              (fun fs => match fs !! path with
                         | Some f => (Ok (data f), fs)
                         | None => (Err (ErrNotExist path), fs)
                         end) w)
    as [(_ & E) | [(_ & _ & E) | (_ & _ & E)]];
    rewrite E in H; try discriminate.
  destruct (files w !! path) as [f|] eqn:Hf; simpl in H; [| discriminate].
  injection H as <- <-. split; [now destruct w |]. now exists f.
Qed.

End OsFacts.

(* ===================================================================== *)
(** * The synchroniser, block by block *)
(* ===================================================================== *)

Module SyncFacts.

Import GoStringsFacts GeneratePath OsFacts.

(** *** The front matter *)

Lemma rewriteFrontMatter_cut (newMeta original : string) :
  rewriteFrontMatter newMeta original
  = if snd (Cut (TrimPrefix original delim) delim)
    then Ok (delim +:+ newMeta +:+ delim
             +:+ snd (fst (Cut (TrimPrefix original delim) delim)))
    else Err ErrInvalidMarkdown.
Proof.
  unfold rewriteFrontMatter.
  destruct (Cut (TrimPrefix original delim) delim) as [[b a] []];
    reflexivity.
Qed.

Lemma rewriteFrontMatter_err (newMeta original : string) :
  rewriteFrontMatter newMeta original = Err ErrInvalidMarkdown
  <-> (forall a b, TrimPrefix original delim <> a +:+ delim +:+ b).
Proof.
  rewrite rewriteFrontMatter_cut, <- Cut_missing.
  destruct (snd (Cut (TrimPrefix original delim) delim)); split;
    intros; try discriminate; reflexivity.
Qed.

Lemma rewriteFrontMatter_ok (newMeta original newDoc : string) :
  rewriteFrontMatter newMeta original = Ok newDoc ->
  exists before after,
    Cut (TrimPrefix original delim) delim = (before, after, true)
    /\ newDoc = delim +:+ newMeta +:+ delim +:+ after.
Proof.
  rewrite rewriteFrontMatter_cut.
  destruct (Cut (TrimPrefix original delim) delim) as [[b a] []];
    cbn [fst snd]; intros H; [| discriminate].
  injection H as <-. now exists b, a.
Qed.

Section WithLibraries.

Variable unicodeLower : string -> string.
Variable blake3 : string -> list Byte.byte.
Variable formatRFC3339 : Time.t -> string.
Variable ParseMarkdown : string -> result Document.t.
Variable yamlMarshal : Metadata.t -> result string.

Let normalize := normalize unicodeLower.
Let writeBack := writeBack yamlMarshal.
Let mergePost := mergePost blake3 formatRFC3339.
Let Document_Hash := Document_Hash blake3 formatRFC3339.
Let processMarkdownFile :=
  processMarkdownFile unicodeLower blake3 formatRFC3339 ParseMarkdown
                      yamlMarshal.
Let afterParse := afterParse unicodeLower blake3 formatRFC3339 yamlMarshal.
Let processFiles :=
  processFiles unicodeLower blake3 formatRFC3339 ParseMarkdown yamlMarshal.

(** *** Normalisation *)

Local Ltac run := cbn -[String.append slug generatePath].

(** Membership of a write in a trace that grew by a few calls. *)
Local Ltac in_trace :=
  let Hin := fresh "Hin" in
  cbn; intros Hin;
  repeat (destruct Hin as [Hin|Hin]; try discriminate);
  auto; try (injection Hin as <- _; auto).

Lemma normalize_run (doc : Document.t) (w : World) :
  normalize doc w
  = if idMissing doc && snd (entropy w (draws w))
    then (Panic "failed to generate random ID", draw w)
    else (Done (normalized unicodeLower doc w, missing doc),
          afterNormalize doc w).
Proof.
  subst normalize. unfold Website.normalize, fillID, fillDate, fillPath.
  unfold bind. unfold missing, normalized, afterNormalize.
  unfold idMissing, dateMissing, pathMissing.
  destruct doc as [ty md html [id ti au de da pa go ca hi]].
  cbn [Document.Metadata Metadata.ID Metadata.Date Metadata.Path fst snd].
  destruct (String.eqb id EmptyString) eqn:Eid.
  - unfold RandID, bind, randRead.
    destruct (entropy w (draws w)) as [bs failed] eqn:Ee. run.
    destruct failed; [reflexivity |]. run.
    destruct (Time.IsZero da) eqn:Eda; run;
      destruct (String.eqb pa EmptyString) eqn:Epa; run;
      rewrite ?generatePath_run; reflexivity.
  - run.
    destruct (Time.IsZero da) eqn:Eda; run;
      destruct (String.eqb pa EmptyString) eqn:Epa; run;
      rewrite ?generatePath_run; now destruct w.
Qed.

(** *** The merge *)

Lemma mergePost_run (gc : GenerationContext.t) (path : string)
    (doc : Document.t) (w : World) :
  mergePost gc path doc w
  = match GenerationContext.DataStore gc with
    | None => (Panic "nil pointer dereference", tick w)
    | Some ds =>
        match DataStore.Posts ds with
        | None => (Panic "assignment to entry in nil map", tick w)
        | Some m =>
            let id := Metadata.ID (Document.Metadata doc) in
            (Done (storeOf (<[id := mergedPost (Document_Hash doc) (m !! id)
                                      path doc (clock w (ticks w))]> m)),
             tick w)
        end
    end.
Proof.
  subst mergePost Document_Hash. unfold Website.mergePost, bind, Now, storeOf.
  destruct gc as [[[[m|]]|]]; cbn -[String.eqb]; try reflexivity.
  destruct (m !! Metadata.ID (Document.Metadata doc)) as [p|] eqn:Hp;
    cbn -[String.eqb].
  - destruct (String.eqb (Post.Hash p) _); reflexivity.
  - rewrite insert_insert_eq.
    destruct (String.eqb EmptyString _) eqn:E; cbn -[String.eqb];
      [| reflexivity].
    apply String.eqb_eq in E. rewrite <- E. reflexivity.
Qed.

Lemma mergePost_files (gc gc' : GenerationContext.t) (path : string)
    (doc : Document.t) (w w' : World) o :
  mergePost gc path doc w = (o, w') ->
  files w' = files w /\ trace w' = trace w.
Proof.
  rewrite mergePost_run.
  destruct (GenerationContext.DataStore gc) as [[[m|]]|];
    intros H; injection H as <- <-; split; reflexivity.
Qed.

(** *** The write-back *)

Lemma writeBack_other (path : string) (doc : Document.t) (w : World) :
  Document.Type_ doc <> DocumentType.Markdown ->
  writeBack path doc w = (Done (Ok doc), w).
Proof.
  unfold writeBack, Website.writeBack. intros H.
  destruct (Document.Type_ doc); [reflexivity | congruence | reflexivity].
Qed.

Lemma writeBack_invalid (path : string) (doc : Document.t) (w : World)
    (newMeta : string) :
  Document.Type_ doc = DocumentType.Markdown ->
  yamlMarshal (Document.Metadata doc) = Ok newMeta ->
  rewriteFrontMatter newMeta (Document.Markdown doc) = Err ErrInvalidMarkdown ->
  writeBack path doc w = (Done (Err ErrInvalidMarkdown), w).
Proof.
  unfold writeBack, Website.writeBack. intros -> -> ->. reflexivity.
Qed.

(** Every way the write-back of a markdown document whose front matter can
    be rewritten may go. *)
Lemma writeBack_markdown (path : string) (doc : Document.t) (w : World)
    (newMeta newDoc : string) :
  Document.Type_ doc = DocumentType.Markdown ->
  yamlMarshal (Document.Metadata doc) = Ok newMeta ->
  rewriteFrontMatter newMeta (Document.Markdown doc) = Ok newDoc ->
  writeBack path doc w
  = (r <- Stat path ;
     match r with
     | Err e => ret (Err e)
     | Ok fmode =>
         r <- WriteFile path newDoc fmode ;
         match r with
         | Err e => ret (Err e)
         | Ok _ => ret (Ok (Document.withMarkdown doc newDoc))
         end
     end) w.
Proof.
  unfold writeBack, Website.writeBack. intros -> -> ->. reflexivity.
Qed.

Lemma writeBack_ok (path : string) (docn doc : Document.t) (w w' : World) :
  writeBack path docn w = (Done (Ok doc), w') ->
  (Document.Type_ docn <> DocumentType.Markdown /\ doc = docn /\ w' = w)
  \/ (Document.Type_ docn = DocumentType.Markdown
      /\ exists newMeta newDoc f,
           yamlMarshal (Document.Metadata docn) = Ok newMeta
           /\ rewriteFrontMatter newMeta (Document.Markdown docn) = Ok newDoc
           /\ doc = Document.withMarkdown docn newDoc
           /\ files w !! path = Some f
           /\ files w' = <[path := mkFile newDoc (mode f)]> (files w)
           /\ trace w' = CWriteFile path newDoc :: CStat path :: trace w).
Proof.
  destruct (DocumentType.eqb (Document.Type_ docn) DocumentType.Markdown)
    eqn:Ety.
  2:{ intros H. left.
      assert (Hne : Document.Type_ docn <> DocumentType.Markdown)
        by (intros E; rewrite E in Ety; discriminate).
      rewrite (writeBack_other _ _ _ Hne) in H. injection H as <- <-. auto. }
  assert (Hty : Document.Type_ docn = DocumentType.Markdown)
    by (destruct (Document.Type_ docn); try discriminate; reflexivity).
  intros H. right. split; [exact Hty |].
  destruct (yamlMarshal (Document.Metadata docn)) as [newMeta|e] eqn:Hy.
  2:{ unfold writeBack, Website.writeBack in H.
      rewrite Hty, Hy in H. discriminate. }
  destruct (rewriteFrontMatter newMeta (Document.Markdown docn))
    as [newDoc|e] eqn:Hr.
  2:{ unfold writeBack, Website.writeBack in H.
      rewrite Hty, Hy, Hr in H. discriminate. }
  rewrite (writeBack_markdown _ _ _ _ _ Hty Hy Hr) in H.
  exists newMeta, newDoc. unfold bind, Stat, WriteFile in H.
  match type of H with context [syscall ?c ?act w] =>
    destruct (syscall_cases c act w)
      as [(_ & E) | [(_ & _ & E) | (_ & _ & E)]]; rewrite E in H
  end; try discriminate.
  destruct (files w !! path) as [f|] eqn:Hf; cbn [fst snd] in H;
    [| discriminate].
  exists f.
  match type of H with context [syscall ?c ?act ?w1] =>
    destruct (syscall_cases c act w1)
      as [(_ & E') | [(_ & _ & E') | (_ & _ & E')]]; rewrite E' in H
  end; try discriminate.
  cbn [files setFiles enter fst snd] in H. rewrite Hf in H.
  cbn [fst snd] in H. injection H as <- <-.
  repeat split; try assumption; reflexivity.
Qed.

(** [WriteFile] is the only call of the write-back that is a write, and a
    document that is not markdown does not get there. *)
Lemma writeBack_writes (path : string) (doc : Document.t) (w w' : World) o
    (p b : string) :
  writeBack path doc w = (o, w') ->
  In (CWriteFile p b) (trace w') ->
  In (CWriteFile p b) (trace w)
  \/ (Document.Type_ doc = DocumentType.Markdown /\ p = path).
Proof.
  unfold writeBack, Website.writeBack.
  destruct (Document.Type_ doc) eqn:Hty; cbn [DocumentType.eqb].
  1,3: intros H; injection H as <- <-; auto.
  destruct (yamlMarshal (Document.Metadata doc)) as [newMeta|e];
    [| intros H; injection H as <- <-; auto].
  destruct (rewriteFrontMatter newMeta (Document.Markdown doc))
    as [newDoc|e]; [| intros H; injection H as <- <-; auto].
  unfold bind, ret, Stat, WriteFile. intros H.
  match type of H with context [syscall ?c ?act w] =>
    destruct (syscall_cases c act w)
      as [(_ & E) | [(_ & _ & E) | (_ & _ & E)]]; rewrite E in H
  end.
  1,2: injection H as <- <-; in_trace.
  destruct (files w !! path) as [f|] eqn:Hf; simpl in H.
  2:{ injection H as <- <-. in_trace. }
  match type of H with context [syscall ?c ?act ?w1] =>
    destruct (syscall_cases c act w1)
      as [(_ & E') | [(_ & _ & E') | (_ & _ & E')]]; rewrite E' in H
  end; simpl in H; rewrite ?Hf in H; simpl in H;
    injection H as <- <-; in_trace.
Qed.

(** *** [processMarkdownFile] *)

Lemma processMarkdownFile_parsed (gc : GenerationContext.t) (path : string)
    (w : World) (f : File) (doc0 : Document.t) :
  files w !! path = Some f -> ParseMarkdown (data f) = Ok doc0 ->
  kill w <> Some O -> faults w (length (trace w)) = false ->
  processMarkdownFile gc path w
  = afterParse gc path doc0 (enter w (CReadFile path)).
Proof.
  intros Hf Hp Hk Hq.
  subst processMarkdownFile. unfold Website.processMarkdownFile.
  unfold bind at 1, ReadFile.
  match goal with |- context [syscall ?c ?act w] =>
    destruct (syscall_cases c act w)
      as [(Hk' & _) | [(_ & Hq' & _) | (_ & _ & E)]];
      [congruence | congruence | rewrite E]
  end.
  rewrite Hf. cbn [fst snd]. unfold parseMarkdown. rewrite Hp.
  subst afterParse. unfold Spec.afterParse.
  unfold bind at 1. fold normalize. rewrite normalize_run.
  replace (setFiles (enter w (CReadFile path)) (files w))
    with (enter w (CReadFile path)) by now destruct w.
  destruct (idMissing doc0 && _); [reflexivity |].
  destruct (missing doc0); reflexivity.
Qed.

Lemma processMarkdownFile_cases (gc : GenerationContext.t) (path : string)
    (w : World) :
  processMarkdownFile gc path w = (Killed, w)
  \/ (exists e, processMarkdownFile gc path w
                = (Done (Err e, gc), enter w (CReadFile path)))
  \/ (exists f doc0,
        files w !! path = Some f /\ ParseMarkdown (data f) = Ok doc0
        /\ kill w <> Some O /\ faults w (length (trace w)) = false
        /\ processMarkdownFile gc path w
           = afterParse gc path doc0 (enter w (CReadFile path))).
Proof.
  remember (processMarkdownFile gc path w) as r eqn:Hr.
  pose proof Hr as Hr0.
  unfold processMarkdownFile, Website.processMarkdownFile in Hr.
  unfold bind at 1, ReadFile in Hr.
  match type of Hr with context [syscall ?c ?act w] =>
    destruct (syscall_cases c act w)
      as [(_ & E) | [(_ & _ & E) | (Hk & Hf & E)]]; rewrite E in Hr
  end.
  - left. exact Hr.
  - right. left. exists ErrIO. exact Hr.
  - right. destruct (files w !! path) as [f|] eqn:Hp; cbn [fst snd] in Hr.
    2:{ left. exists (ErrNotExist path). rewrite Hr. now destruct w. }
    unfold parseMarkdown in Hr.
    destruct (ParseMarkdown (data f)) as [doc0|e] eqn:Hparse.
    2:{ left. exists e. rewrite Hr. now destruct w. }
    right. exists f, doc0. repeat split; trivial.
    rewrite Hr0. now apply processMarkdownFile_parsed with f.
Qed.

(** An error of [processMarkdownFile] leaves the store as it was. *)
Lemma processMarkdownFile_err (gc gc' : GenerationContext.t) (path : string)
    (w w' : World) (e : error) :
  processMarkdownFile gc path w = (Done (Err e, gc'), w') -> gc' = gc.
Proof.
  intros H.
  destruct (processMarkdownFile_cases gc path w)
    as [E | [(e' & E) | (f & doc0 & _ & _ & _ & _ & E)]];
    rewrite E in H; try discriminate.
  - now injection H.
  - subst afterParse; unfold Spec.afterParse in H;
    fold writeBack mergePost in H. destruct (idMissing doc0 && _); [discriminate |].
    unfold bind at 1 in H. destruct (missing doc0).
    + destruct (writeBack path _ _) as [[[doc|e1]| | |] w2];
        try discriminate; [| now injection H].
      unfold bind, ret in H.
      destruct (mergePost gc path doc w2) as [[g| | |] w3]; discriminate.
    + unfold ret at 1 in H. unfold bind, ret in H.
      destruct (mergePost gc path _ _) as [[g| | |] w3]; discriminate.
Qed.

(** A successful [processMarkdownFile], step by step. *)
Lemma processMarkdownFile_ok (gc gc' : GenerationContext.t) (path : string)
    (w w' : World) (doc : Document.t) :
  processMarkdownFile gc path w = (Done (Ok doc, gc'), w') ->
  exists f doc0 w3,
    files w !! path = Some f /\ ParseMarkdown (data f) = Ok doc0
    /\ (if missing doc0
        then writeBack path
               (normalized unicodeLower doc0 (enter w (CReadFile path)))
               (afterNormalize doc0 (enter w (CReadFile path)))
             = (Done (Ok doc), w3)
        else doc = normalized unicodeLower doc0 (enter w (CReadFile path))
             /\ w3 = afterNormalize doc0 (enter w (CReadFile path)))
    /\ mergePost gc path doc w3 = (Done gc', w').
Proof.
  intros H.
  destruct (processMarkdownFile_cases gc path w)
    as [E | [(e' & E) | (f & doc0 & Hf & Hp & _ & _ & E)]];
    rewrite E in H; try discriminate.
  subst afterParse; unfold Spec.afterParse in H;
    fold writeBack mergePost in H. destruct (idMissing doc0 && _); [discriminate |].
  unfold bind at 1 in H. exists f, doc0.
  destruct (missing doc0).
  - destruct (writeBack path _ _) as [[[d|e1]| | |] w2] eqn:Hw;
      try discriminate.
    exists w2. unfold bind, ret in H.
    destruct (mergePost gc path d w2) as [[g| | |] w3] eqn:Hm;
      try discriminate.
    injection H as <- <- <-. repeat split; trivial.
  - unfold ret at 1 in H. unfold bind, ret in H.
    destruct (mergePost gc path _ _) as [[g| | |] w3] eqn:Hm;
      try discriminate.
    injection H as <- <- <-. eexists. repeat split; trivial.
Qed.

(** The type, the rendering and the source text of a document are not
    touched by normalisation. *)
Lemma normalized_Type (doc : Document.t) (w : World) :
  Document.Type_ (normalized unicodeLower doc w) = Document.Type_ doc.
Proof. reflexivity. Qed.

Lemma normalized_id (doc : Document.t) (w : World) :
  missing doc = false -> normalized unicodeLower doc w = doc.
Proof.
  unfold missing, normalized. intros H.
  apply orb_false_iff in H as [H Hp]. apply orb_false_iff in H as [Hi Hd].
  rewrite Hi, Hd, Hp. now destruct doc as [ty md html []].
Qed.

(** A write happens only for a markdown document that lacked a field. *)
Lemma processMarkdownFile_writes (gc : GenerationContext.t) (path : string)
    (w w' : World) o (p b : string) :
  processMarkdownFile gc path w = (o, w') ->
  In (CWriteFile p b) (trace w') ->
  In (CWriteFile p b) (trace w)
  \/ (exists f doc0,
        files w !! path = Some f /\ ParseMarkdown (data f) = Ok doc0
        /\ missing doc0 = true
        /\ Document.Type_ doc0 = DocumentType.Markdown /\ p = path).
Proof.
  intros H.
  destruct (processMarkdownFile_cases gc path w)
    as [E | [(e' & E) | (f & doc0 & Hf & Hp & _ & _ & E)]];
    rewrite E in H.
  1,2: injection H as <- <-; in_trace.
  subst afterParse; unfold Spec.afterParse in H;
    fold writeBack mergePost in H.
  destruct (idMissing doc0 && _); [injection H as <- <-; in_trace |].
  unfold bind at 1 in H.
  destruct (missing doc0) eqn:Hmiss.
  - destruct (writeBack path _ _) as [r w2] eqn:Hw.
    assert (Hw2 : In (CWriteFile p b) (trace w2) ->
                  In (CWriteFile p b) (trace w)
                  \/ (Document.Type_ doc0 = DocumentType.Markdown /\ p = path)).
    { intros Hin. destruct (writeBack_writes _ _ _ _ _ _ _ Hw Hin)
        as [Hold | [Hty ->]]; [| auto].
      revert Hold. in_trace. }
    assert (Hend : In (CWriteFile p b) (trace w2) ->
                   In (CWriteFile p b) (trace w)
                   \/ (exists f doc0,
                         files w !! path = Some f
                         /\ ParseMarkdown (data f) = Ok doc0
                         /\ missing doc0 = true
                         /\ Document.Type_ doc0 = DocumentType.Markdown
                         /\ p = path)).
    { intros Hin. destruct (Hw2 Hin) as [Hold | [Hty ->]]; [auto |].
      right. exists f, doc0. auto. }
    destruct r as [[d|e1]| | |]; try (injection H as <- <-; exact Hend).
    unfold bind, ret in H.
    destruct (mergePost gc path d w2) as [r3 w3] eqn:Hm.
    destruct (mergePost_files _ gc _ _ _ _ _ Hm) as [_ Ht].
    destruct r3; injection H as <- <-; rewrite Ht; exact Hend.
  - unfold ret at 1 in H. unfold bind, ret in H.
    destruct (mergePost gc path _ _) as [r3 w3] eqn:Hm.
    destruct (mergePost_files _ gc _ _ _ _ _ Hm) as [_ Ht].
    destruct r3; injection H as <- <-; rewrite Ht; in_trace.
Qed.

(** *** Malformed front matter *)

(** C1, as amended.  When the write-back of a markdown document fails
    because its source text has no front-matter delimiter line to cut at,
    [processMarkdownFile] returns [ErrInvalidMarkdown] at once: nothing is
    written, no system call follows the read of the file, the store is the
    one it was given, and the loop of [generate] logs the file as failed and
    goes on with the next one. *)
Theorem invalid_front_matter_aborts (gc : GenerationContext.t)
    (path : string) (w : World) (f : File) (doc0 : Document.t)
    (newMeta : string) (rest : list string) :
  files w !! path = Some f -> ParseMarkdown (data f) = Ok doc0 ->
  kill w <> Some O -> faults w (length (trace w)) = false ->
  idMissing doc0 && snd (entropy w (draws w)) = false ->
  missing doc0 = true ->
  Document.Type_ doc0 = DocumentType.Markdown ->
  yamlMarshal (Document.Metadata
                 (normalized unicodeLower doc0 (enter w (CReadFile path))))
  = Ok newMeta ->
  (forall a b,
     TrimPrefix (Document.Markdown doc0) delim <> a +:+ delim +:+ b) ->
  let w' := afterNormalize doc0 (enter w (CReadFile path)) in
  processMarkdownFile gc path w = (Done (Err ErrInvalidMarkdown, gc), w')
  /\ files w' = files w
  /\ trace w' = CReadFile path :: trace w
  /\ (isMarkdownExt unicodeLower path = true ->
      processFiles gc (path :: rest) w
      = processFiles gc rest (logError w' path ErrInvalidMarkdown)).
Proof.
  intros Hf Hp Hk Hq Hpanic Hmiss Hty Hy Hno w'.
  assert (E : processMarkdownFile gc path w
              = (Done (Err ErrInvalidMarkdown, gc), w')).
  { rewrite (processMarkdownFile_parsed gc path w f doc0 Hf Hp Hk Hq).
    subst afterParse. unfold Spec.afterParse.
    cbn [entropy draws enter]. rewrite Hpanic, Hmiss.
    unfold bind. fold writeBack.
    rewrite (writeBack_invalid path _ _ newMeta); [reflexivity | | exact Hy |].
    - exact Hty.
    - apply rewriteFrontMatter_err. exact Hno. }
  split; [exact E |]. split; [reflexivity |]. split; [reflexivity |].
  intros Hext. subst processFiles. cbn [Website.processFiles].
  rewrite Hext. unfold bind at 1. unfold bind at 1.
  fold processMarkdownFile. rewrite E. reflexivity.
Qed.

(** C10.  With a markdown document whose metadata serialises,
    [ErrInvalidMarkdown] comes back exactly when the source text, one leading
    delimiter line taken off, holds no delimiter line anywhere.  A text that
    does not start with a delimiter line but has one further down is
    rewritten all the same: in a quiet environment the write-back succeeds,
    and the file then holds the new front matter followed by what came after
    the first delimiter line; what stood before it is gone. *)
Theorem front_matter_detection_lax (path : string) (doc : Document.t)
    (newMeta : string) :
  Document.Type_ doc = DocumentType.Markdown ->
  yamlMarshal (Document.Metadata doc) = Ok newMeta ->
  (forall w,
     fst (writeBack path doc w) = Done (Err ErrInvalidMarkdown)
     <-> (forall a b,
            TrimPrefix (Document.Markdown doc) delim <> a +:+ delim +:+ b))
  /\ (forall w f x y,
        kill w = None -> (forall n, faults w n = false) ->
        files w !! path = Some f ->
        HasPrefix (Document.Markdown doc) delim = false ->
        Document.Markdown doc = x +:+ delim +:+ y ->
        exists before after,
          Document.Markdown doc = before +:+ delim +:+ after
          /\ (String.length before <= String.length x)%nat
          /\ fst (writeBack path doc w)
             = Done (Ok (Document.withMarkdown doc
                           (delim +:+ newMeta +:+ delim +:+ after)))
          /\ files (snd (writeBack path doc w)) !! path
             = Some (mkFile (delim +:+ newMeta +:+ delim +:+ after)
                            (mode f))).
Proof using Type.
  intros Hty Hy. split.
  - intros w. rewrite <- (rewriteFrontMatter_err newMeta).
    destruct (rewriteFrontMatter newMeta (Document.Markdown doc))
      as [newDoc|e] eqn:Hr.
    + rewrite (writeBack_markdown _ _ _ _ _ Hty Hy Hr).
      split; [| discriminate]. unfold bind, ret, Stat, WriteFile.
      match goal with |- context [syscall ?c ?act w] =>
        destruct (syscall_cases c act w)
          as [(_ & E) | [(_ & _ & E) | (_ & _ & E)]]; rewrite E
      end; try discriminate.
      destruct (files w !! path) as [f|]; cbn [fst snd]; [| discriminate].
      match goal with |- context [syscall ?c ?act ?w1] =>
        destruct (syscall_cases c act w1)
          as [(_ & E') | [(_ & _ & E') | (_ & _ & E')]]; rewrite E'
      end; try discriminate.
      cbn [files setFiles enter].
      destruct (files w !! path); discriminate.
    + assert (e = ErrInvalidMarkdown) as ->.
      { rewrite rewriteFrontMatter_cut in Hr.
        destruct (snd (Cut _ _)); [discriminate | now injection Hr]. }
      rewrite (writeBack_invalid _ _ _ newMeta Hty Hy Hr).
      split; intros _; reflexivity.
  - intros w f x y Hk Hq Hf Hpre Hxy.
    assert (Htrim : TrimPrefix (Document.Markdown doc) delim
                    = Document.Markdown doc)
      by (unfold TrimPrefix; now rewrite Hpre).
    destruct (Cut (Document.Markdown doc) delim) as [[before after] ok]
      eqn:Hcut.
    assert (ok = true) as ->.
    { destruct ok; [reflexivity |]. exfalso.
      assert (Hs : snd (Cut (Document.Markdown doc) delim) = false)
        by now rewrite Hcut.
      exact (proj1 (Cut_missing _ _) Hs x y Hxy). }
    destruct (Cut_found _ _ _ _ Hcut) as [Hsplit Hfirst].
    exists before, after. split; [exact Hsplit |].
    split; [exact (Hfirst x y Hxy) |].
    assert (Hr : rewriteFrontMatter newMeta (Document.Markdown doc)
                 = Ok (delim +:+ newMeta +:+ delim +:+ after)).
    { rewrite rewriteFrontMatter_cut, Htrim, Hcut. reflexivity. }
    rewrite (writeBack_markdown _ _ _ _ _ Hty Hy Hr).
    unfold bind, ret, Stat, WriteFile.
    rewrite (syscall_quiet _ _ w Hk (Hq _)), Hf. cbn [fst snd].
    rewrite syscall_quiet
      by (cbn [kill faults setFiles enter]; rewrite ?Hk; auto).
    cbn [files setFiles enter]. rewrite Hf. cbn [fst snd files setFiles].
    split; [reflexivity |]. apply lookup_insert_eq.
Qed.

(** *** The merge into the store *)

Lemma storeOf_inj (m m' : gmap string Post.t) : storeOf m = storeOf m' -> m = m'.
Proof. unfold storeOf. congruence. Qed.

(** C2.  When the post of the synchronised document is already in the
    store, the merge sets its file path, URL path and main document from the
    document just parsed, whatever they were; the digest decides the rest:
    a different digest replaces the stored one and puts the current time in
    [UpdatedAt], an equal digest leaves both as they are.  The identifier,
    [CreatedAt] and the translations are kept. *)
Theorem merge_existing_post (gc gc' : GenerationContext.t) (path : string)
    (w w' : World) (doc : Document.t) (m : gmap string Post.t) (p : Post.t) :
  processMarkdownFile gc path w = (Done (Ok doc, gc'), w') ->
  gc = storeOf m ->
  m !! Metadata.ID (Document.Metadata doc) = Some p ->
  exists p',
    gc' = storeOf (<[Metadata.ID (Document.Metadata doc) := p']> m)
    /\ Post.FilePath p' = path
    /\ Post.Path p' = Metadata.Path (Document.Metadata doc)
    /\ Post.Main p' = Some doc
    /\ Post.ID p' = Post.ID p
    /\ Post.CreatedAt p' = Post.CreatedAt p
    /\ Post.Translated p' = Post.Translated p
    /\ (Post.Hash p <> Document_Hash doc ->
        Post.Hash p' = Document_Hash doc
        /\ Post.UpdatedAt p' = clock w' (Nat.pred (ticks w')))
    /\ (Post.Hash p = Document_Hash doc ->
        Post.Hash p' = Post.Hash p
        /\ Post.UpdatedAt p' = Post.UpdatedAt p).
Proof.
  intros H -> Hp.
  destruct (processMarkdownFile_ok _ _ _ _ _ _ H)
    as (f & doc0 & w3 & _ & _ & _ & Hm).
  rewrite mergePost_run in Hm. cbn in Hm. injection Hm as <- <-.
  rewrite Hp. eexists. split; [reflexivity |]. cbn.
  repeat split; trivial.
  - destruct (String.eqb_spec (Post.Hash p) (Document_Hash doc));
      [contradiction | reflexivity].
  - destruct (String.eqb_spec (Post.Hash p) (Document_Hash doc));
      [contradiction | reflexivity].
  - destruct (String.eqb_spec (Post.Hash p) (Document_Hash doc));
      [reflexivity | contradiction].
  - destruct (String.eqb_spec (Post.Hash p) (Document_Hash doc));
      [reflexivity | contradiction].
Qed.

(** C3.  When the store has no post under the identifier of the
    synchronised document, one is created and put there, whose [CreatedAt]
    and [UpdatedAt] are both the current time and whose translations are an
    empty map.  When the store has one, the merge keeps its [CreatedAt]; and
    no merge touches the posts of other identifiers. *)
Theorem merge_new_post (gc gc' : GenerationContext.t) (path : string)
    (w w' : World) (doc : Document.t) (m : gmap string Post.t) :
  processMarkdownFile gc path w = (Done (Ok doc, gc'), w') ->
  gc = storeOf m ->
  let id := Metadata.ID (Document.Metadata doc) in
  let now := clock w' (Nat.pred (ticks w')) in
  (m !! id = None ->
   gc' = storeOf (<[id := Post.mk id path
                            (Metadata.Path (Document.Metadata doc))
                            (Document_Hash doc) now now (Some doc)
                            (Some ∅)]> m))
  /\ (forall p, m !! id = Some p ->
      exists p', gc' = storeOf (<[id := p']> m)
                 /\ Post.CreatedAt p' = Post.CreatedAt p)
  /\ (exists m', gc' = storeOf m'
                 /\ forall k, k <> id -> m' !! k = m !! k).
Proof.
  intros H -> id now.
  destruct (processMarkdownFile_ok _ _ _ _ _ _ H)
    as (f & doc0 & w3 & _ & _ & _ & Hm).
  rewrite mergePost_run in Hm. cbn in Hm. injection Hm as <- <-.
  subst now. cbn. fold id. repeat split.
  - intros ->. reflexivity.
  - intros p ->. eexists. split; reflexivity.
  - eexists. split; [reflexivity |]. intros k Hk.
    now apply lookup_insert_ne.
Qed.

(** *** Normalisation, seen from outside *)

Lemma length_fit (n : nat) (bs : list Byte.byte) : length (fit n bs) = n.
Proof.
  unfold fit. rewrite length_firstn, length_app, repeat_length. lia.
Qed.

Lemma EncodeToString_nonempty (n : nat) (bs : list Byte.byte) :
  EncodeToString (fit (S n) bs) <> EmptyString.
Proof.
  pose proof (length_fit (S n) bs) as H.
  destruct (fit (S n) bs); [discriminate | discriminate].
Qed.

Lemma normalized_ID (doc : Document.t) (w : World) :
  Metadata.ID (Document.Metadata (normalized unicodeLower doc w))
  = if idMissing doc
    then EncodeToString (fit 16 (fst (entropy w (draws w))))
    else Metadata.ID (Document.Metadata doc).
Proof. reflexivity. Qed.

Lemma normalized_ID_nonempty (doc : Document.t) (w : World) :
  Metadata.ID (Document.Metadata (normalized unicodeLower doc w))
  <> EmptyString.
Proof.
  rewrite normalized_ID. unfold idMissing.
  destruct (String.eqb_spec (Metadata.ID (Document.Metadata doc)) EmptyString);
    [apply EncodeToString_nonempty | assumption].
Qed.

(** C4.  Normalisation fills exactly the fields that are missing, each from
    one draw of entropy or one reading of the clock: an empty identifier
    becomes the hexadecimal text of sixteen random bytes, a zero date the
    current time in UTC, an empty path [generatePath] of the title; a field
    that is there stays; the flag says whether a field was filled.  (The one
    other ending is the panic of [RandID] when the entropy source fails.)  A
    write of the file is attempted only for a markdown document that lacked
    a field. *)
Theorem normalizer_fills_missing_fields (doc : Document.t) (w : World) :
  normalize doc w
  = (if idMissing doc && snd (entropy w (draws w))
     then (Panic "failed to generate random ID", draw w)
     else (Done (normalized unicodeLower doc w, missing doc),
           afterNormalize doc w))
  /\ (let m := Document.Metadata doc in
      let m' := Document.Metadata (normalized unicodeLower doc w) in
      Metadata.ID m'
      = (if String.eqb (Metadata.ID m) EmptyString
         then EncodeToString (fit 16 (fst (entropy w (draws w))))
         else Metadata.ID m)
      /\ Metadata.Date m'
         = (if Time.IsZero (Metadata.Date m)
            then Time.toUTC (clock w (ticks w))
            else Metadata.Date m)
      /\ (exists w1,
            Metadata.Path m'
            = if String.eqb (Metadata.Path m) EmptyString
              then match fst (generatePath unicodeLower (Metadata.Title m) w1)
                   with Done p => p | _ => EmptyString end
              else Metadata.Path m)
      /\ Metadata.Title m' = Metadata.Title m
      /\ Metadata.Author m' = Metadata.Author m
      /\ Metadata.Description m' = Metadata.Description m
      /\ Metadata.GoPackage m' = Metadata.GoPackage m
      /\ Metadata.Canonical m' = Metadata.Canonical m
      /\ Metadata.Hidden m' = Metadata.Hidden m
      /\ Document.withMeta (normalized unicodeLower doc w) m = doc)
  /\ (missing doc = true
      <-> Metadata.ID (Document.Metadata doc) = EmptyString
          \/ Time.IsZero (Metadata.Date (Document.Metadata doc)) = true
          \/ Metadata.Path (Document.Metadata doc) = EmptyString)
  /\ (forall gc path w0 o w' p b,
        processMarkdownFile gc path w0 = (o, w') ->
        In (CWriteFile p b) (trace w') ->
        In (CWriteFile p b) (trace w0)
        \/ (exists f doc0,
              files w0 !! path = Some f /\ ParseMarkdown (data f) = Ok doc0
              /\ missing doc0 = true
              /\ Document.Type_ doc0 = DocumentType.Markdown /\ p = path)).
Proof.
  split; [apply normalize_run |]. split; [| split].
  - cbn. repeat split; try reflexivity.
    + exists (if idMissing doc then draw w else w).
      unfold pathMissing. destruct (String.eqb _ EmptyString); [| reflexivity].
      rewrite generatePath_run. cbn. now destruct (idMissing doc).
    + now destruct doc.
  - unfold missing, idMissing, dateMissing, pathMissing.
    rewrite !orb_true_iff, !String.eqb_eq. tauto.
  - intros gc path w0 o w' p b. apply processMarkdownFile_writes.
Qed.

(** C5.  A document that has its three fields goes through normalisation
    unchanged and without a reading of the clock or a draw of entropy;
    processing its file writes nothing, the files are afterwards what they
    were, and the document returned is the one parsed.  After a successful
    synchronisation the identifier of the document is not empty and, when a
    field had been missing from a markdown document, the file holds the
    rewritten text; a later synchronisation of a file that the parser reads
    with that identifier returns a document with that identifier. *)
Theorem normalization_idempotent :
  (forall doc w, missing doc = false -> normalize doc w = (Done (doc, false), w))
  /\ (forall gc path w f doc0,
        files w !! path = Some f -> ParseMarkdown (data f) = Ok doc0 ->
        missing doc0 = false ->
        files (snd (processMarkdownFile gc path w)) = files w
        /\ (forall p b,
              In (CWriteFile p b) (trace (snd (processMarkdownFile gc path w)))
              -> In (CWriteFile p b) (trace w))
        /\ (forall doc gc',
              fst (processMarkdownFile gc path w) = Done (Ok doc, gc') ->
              doc = doc0))
  /\ (forall gc gc1 path w w1 doc1,
        processMarkdownFile gc path w = (Done (Ok doc1, gc1), w1) ->
        Metadata.ID (Document.Metadata doc1) <> EmptyString
        /\ (forall f doc0,
              files w !! path = Some f -> ParseMarkdown (data f) = Ok doc0 ->
              missing doc0 = true ->
              Document.Type_ doc0 = DocumentType.Markdown ->
              files w1 !! path = Some (mkFile (Document.Markdown doc1) (mode f)))
        /\ (forall gc2 gc3 w2 w3 f2 d2 doc2,
              files w2 !! path = Some f2 -> ParseMarkdown (data f2) = Ok d2 ->
              Metadata.ID (Document.Metadata d2)
              = Metadata.ID (Document.Metadata doc1) ->
              processMarkdownFile gc2 path w2 = (Done (Ok doc2, gc3), w3) ->
              Metadata.ID (Document.Metadata doc2)
              = Metadata.ID (Document.Metadata doc1))).
Proof.
  assert (Hid : forall gc gc1 path w w1 doc1 f doc0,
            processMarkdownFile gc path w = (Done (Ok doc1, gc1), w1) ->
            files w !! path = Some f -> ParseMarkdown (data f) = Ok doc0 ->
            Document.Metadata doc1
            = Document.Metadata
                (normalized unicodeLower doc0 (enter w (CReadFile path)))).
  { intros gc gc1 path w w1 doc1 f doc0 H Hf Hp.
    destruct (processMarkdownFile_ok _ _ _ _ _ _ H)
      as (f' & d' & w3 & Hf' & Hp' & Hstep & _).
    rewrite Hf in Hf'. injection Hf' as <-. rewrite Hp in Hp'.
    injection Hp' as <-.
    destruct (missing doc0).
    - destruct (writeBack_ok _ _ _ _ _ Hstep)
        as [(_ & -> & _) | (_ & nm & nd & f1 & _ & _ & -> & _)];
        reflexivity.
    - now destruct Hstep as [-> _]. }
  split; [| split].
  - intros doc w Hm. rewrite normalize_run.
    pose proof Hm as Hm'. unfold missing in Hm'.
    apply orb_false_iff in Hm' as [Hm' Hpa].
    apply orb_false_iff in Hm' as [Hi Hd].
    rewrite Hi. cbn [andb]. rewrite Hm, (normalized_id _ _ Hm).
    unfold afterNormalize. rewrite Hi, Hd, Hpa. now destruct w.
  - intros gc path w f doc0 Hf Hp Hm.
    assert (Hw : forall p b,
              In (CWriteFile p b) (trace (snd (processMarkdownFile gc path w)))
              -> In (CWriteFile p b) (trace w)).
    { intros p b Hin.
      destruct (processMarkdownFile gc path w) as [o w'] eqn:E.
      destruct (processMarkdownFile_writes _ _ _ _ _ _ _ E Hin)
        as [Hold | (f' & d' & Hf' & Hp' & Hm' & _)]; [exact Hold |].
      rewrite Hf in Hf'. injection Hf' as <-. rewrite Hp in Hp'.
      injection Hp' as <-. congruence. }
    split; [| split; [exact Hw |]].
    + destruct (processMarkdownFile_cases gc path w)
        as [E | [(e' & E) | (f' & d' & Hf' & Hp' & _ & _ & E)]];
        rewrite E; try reflexivity.
      rewrite Hf in Hf'. injection Hf' as <-. rewrite Hp in Hp'.
      injection Hp' as <-.
      subst afterParse. unfold Spec.afterParse.
      pose proof Hm as Hm'. unfold missing in Hm'.
      apply orb_false_iff in Hm' as [Hm' Hpa].
      apply orb_false_iff in Hm' as [Hi Hd].
      rewrite Hi, Hm. cbn [andb]. unfold bind at 1. unfold ret at 1.
      unfold bind, ret. fold mergePost.
      destruct (mergePost gc path _ _) as [r3 w3] eqn:Hmerge.
      destruct (mergePost_files _ gc _ _ _ _ _ Hmerge) as [Hfiles _].
      destruct r3; cbn [snd]; rewrite Hfiles; reflexivity.
    + intros doc gc' E.
      destruct (processMarkdownFile gc path w) as [o w'] eqn:E'.
      cbn [fst] in E. subst o.
      destruct (processMarkdownFile_ok _ _ _ _ _ _ E')
        as (f' & d' & w3 & Hf' & Hp' & Hstep & _).
      rewrite Hf in Hf'. injection Hf' as <-. rewrite Hp in Hp'.
      injection Hp' as <-. rewrite Hm in Hstep. destruct Hstep as [-> _].
      now apply normalized_id.
  - intros gc gc1 path w w1 doc1 H.
    destruct (processMarkdownFile_ok _ _ _ _ _ _ H)
      as (f & doc0 & w3 & Hf & Hp & Hstep & Hmerge).
    pose proof (Hid _ _ _ _ _ _ _ _ H Hf Hp) as Hmeta.
    assert (Hne : Metadata.ID (Document.Metadata doc1) <> EmptyString)
      by (rewrite Hmeta; apply normalized_ID_nonempty).
    split; [exact Hne |]. split.
    + intros f' d' Hf' Hp' Hm Hty.
      rewrite Hf in Hf'. injection Hf' as <-. rewrite Hp in Hp'.
      injection Hp' as <-. rewrite Hm in Hstep.
      destruct (mergePost_files _ gc _ _ _ _ _ Hmerge) as [Hfiles _].
      rewrite Hfiles.
      destruct (writeBack_ok _ _ _ _ _ Hstep)
        as [(Hty' & _) | (_ & nm & nd & f1 & _ & _ & -> & Hf1 & Hfs & _)].
      * rewrite normalized_Type in Hty'. contradiction.
      * rewrite Hfs, lookup_insert_eq. cbn in Hf1. rewrite Hf in Hf1.
        injection Hf1 as <-. reflexivity.
    + intros gc2 gc3 w2 w3' f2 d2 doc2 Hf2 Hp2 Hsame H2.
      rewrite (Hid _ _ _ _ _ _ _ _ H2 Hf2 Hp2), normalized_ID.
      unfold idMissing. rewrite Hsame.
      destruct (String.eqb_spec (Metadata.ID (Document.Metadata doc1))
                  EmptyString); [contradiction | reflexivity].
Qed.

End WithLibraries.

End SyncFacts.

(* ===================================================================== *)
(** * The digests *)
(* ===================================================================== *)

Module HashFacts.

Import GeneratePath.

Section WithHash.

Variable blake3 : string -> list Byte.byte.
Variable formatRFC3339 : Time.t -> string.

Let Metadata_Hash := Metadata_Hash blake3 formatRFC3339.
Let Document_Hash := Document_Hash blake3 formatRFC3339.
Let Metadata_bytes := Metadata_bytes formatRFC3339.
Let Document_bytes := Document_bytes blake3 formatRFC3339.

Lemma digest_eq (a b : string) :
  EncodeToString (blake3 a) = EncodeToString (blake3 b) ->
  a = b \/ (a <> b /\ blake3 a = blake3 b).
Proof.
  intros H. apply EncodeToString_inj in H.
  destruct (String.string_dec a b); auto.
Qed.

(** C6, as amended.  Each digest is BLAKE3, in hexadecimal, of one string:
    for a metadata record the nine fields written one after the other with
    nothing between them, the date as its RFC 3339 text and the flag as
    [true] or [false]; for a document the name of its type, the source
    text, the rendering and the digest of its metadata, likewise.  So the
    digests are functions of these fields and of nothing else, records with
    the same string have the same digest whatever their fields, and records
    with equal digests have the same string unless BLAKE3 collides on
    them. *)
Theorem digests_of_concatenation :
  (forall g, Metadata_Hash g = EncodeToString (blake3 (Metadata_bytes g)))
  /\ (forall g, Document_Hash g = EncodeToString (blake3 (Document_bytes g)))
  /\ (forall g g',
        Metadata_bytes g = Metadata_bytes g' ->
        Metadata_Hash g = Metadata_Hash g')
  /\ (forall g g',
        Document.Type_ g = Document.Type_ g' ->
        Document.Markdown g = Document.Markdown g' ->
        Document.HTML g = Document.HTML g' ->
        Metadata_Hash (Document.Metadata g)
        = Metadata_Hash (Document.Metadata g') ->
        Document_Hash g = Document_Hash g')
  /\ (forall g d,
        formatRFC3339 d = formatRFC3339 (Metadata.Date g) ->
        Metadata_Hash (Metadata.withDate g d) = Metadata_Hash g)
  /\ (forall g g',
        Metadata_Hash g = Metadata_Hash g' ->
        Metadata_bytes g = Metadata_bytes g'
        \/ (Metadata_bytes g <> Metadata_bytes g'
            /\ blake3 (Metadata_bytes g) = blake3 (Metadata_bytes g')))
  /\ (forall g g',
        Document_Hash g = Document_Hash g' ->
        Document_bytes g = Document_bytes g'
        \/ (Document_bytes g <> Document_bytes g'
            /\ blake3 (Document_bytes g) = blake3 (Document_bytes g'))).
Proof.
  split; [reflexivity |]. split; [reflexivity |]. split; [| split; [| split]].
  - intros g g' H. subst Metadata_Hash Metadata_bytes.
    unfold Website.Metadata_Hash. unfold Spec.Metadata_bytes in H.
    now rewrite H.
  - intros g g' Ht Hm Hh Hd. subst Document_Hash Metadata_Hash.
    unfold Website.Document_Hash. now rewrite Ht, Hm, Hh, Hd.
  - intros g d Hd. subst Metadata_Hash. unfold Website.Metadata_Hash.
    cbn. now rewrite Hd.
  - split; intros g g' H; apply digest_eq; exact H.
Qed.

End WithHash.

End HashFacts.

(* ===================================================================== *)
(** * The snapshot *)
(* ===================================================================== *)

Module SnapshotFacts.

Import GoStringsFacts OsFacts.

Lemma tmpFile_other : tmpFile <> dbFile.
Proof. discriminate. Qed.

Lemma drop_nil (n : nat) : drop n EmptyString = EmptyString.
Proof. now destruct n. Qed.

Lemma overwrite_empty (bytes : string) : overwrite O bytes EmptyString = bytes.
Proof. unfold overwrite. rewrite drop_nil. simpl. apply append_nil_r. Qed.

Lemma quiet_enter (w : World) (c : SysCall) (fs : gmap string File) :
  quiet w -> quiet (setFiles (enter w c) fs).
Proof. intros [Hk Hf]. split; cbn; [now rewrite Hk | exact Hf]. Qed.

Lemma syscall_in_quiet {A} (c : SysCall)
    (act : gmap string File -> result A * gmap string File) (w : World) :
  quiet w ->
  syscall c act w
  = (Done (fst (act (files w))), setFiles (enter w c) (snd (act (files w)))).
Proof. intros [Hk Hf]. now apply syscall_quiet. Qed.

Section WithLibraries.

Variable unicodeLower : string -> string.
Variable blake3 : string -> list Byte.byte.
Variable formatRFC3339 : Time.t -> string.
Variable ParseMarkdown : string -> result Document.t.
Variable yamlMarshal : Metadata.t -> result string.
Variable zstdCompress : Level -> string -> string.
Variable snapshotDecode : string -> result (option DataStore.t).
Variable jsonMarshal : option DataStore.t -> result string.
Variable jsonMarshalIndent : option DataStore.t -> result string.
Variable siteTree : M (result (list string)).

Let load := load zstdCompress snapshotDecode.
Let save := save zstdCompress jsonMarshal.
Let main :=
  main unicodeLower blake3 formatRFC3339 ParseMarkdown yamlMarshal
       zstdCompress snapshotDecode jsonMarshal jsonMarshalIndent siteTree.

Local Ltac sysred :=
  cbn [fst snd files setFiles enter O_CREATE O_TRUNC O_EXCL andb negb
       IsNotExist fd_path fd_off data mode kill trace faults];
  unfold ret, fatal;
  cbn [fst snd files setFiles enter O_CREATE O_TRUNC O_EXCL andb negb
       IsNotExist fd_path fd_off data mode kill trace faults].

Local Ltac qstep :=
  rewrite syscall_in_quiet by (repeat apply quiet_enter; assumption); sysred.

Lemma loaded_store (store : option DataStore.t) :
  GenerationContext.mk
    (Some
       match
         DataStore.Posts
           match store with
           | Some ds => ds
           | None => DataStore.mk None
           end
       with
       | Some _ => match store with
                   | Some ds => ds
                   | None => DataStore.mk None
                   end
       | None => DataStore.mk (Some ∅)
       end)
  = storeOf (loadedPosts store).
Proof. destruct store as [[[m|]]|]; reflexivity. Qed.

Lemma load_quiet_present (w : World) (f : File) :
  quiet w -> files w !! dbFile = Some f ->
  fst (load w)
  = match snapshotDecode (data f) with
    | Err _ => Fatal "failed to decode database file"
    | Ok store => Done (storeOf (loadedPosts store))
    end
  /\ files (snd (load w)) = files w.
Proof.
  intros Hq Hf. subst load.
  unfold Website.load, bind, Stat, OpenFile, ReadAll, Close.
  qstep. rewrite Hf. sysred. qstep. rewrite Hf. sysred. qstep. rewrite Hf.
  sysred. cbn [drop].
  destruct (snapshotDecode (data f)) as [store|e]; [| split; reflexivity].
  qstep. rewrite loaded_store. split; reflexivity.
Qed.

Lemma load_quiet_absent (w : World) :
  quiet w -> files w !! dbFile = None ->
  fst (load w)
  = match snapshotDecode (zstdCompress SpeedDefault "{}") with
    | Err _ => Fatal "failed to decode database file"
    | Ok store => Done (storeOf (loadedPosts store))
    end.
Proof.
  intros Hq Hf. subst load.
  unfold Website.load, bind, Stat, OpenFile, Write, Seek0, ReadAll, Close.
  qstep. rewrite Hf. sysred. qstep. rewrite Hf. sysred. qstep.
  rewrite lookup_insert_eq. sysred. qstep. qstep.
  rewrite insert_insert_eq, lookup_insert_eq. sysred. cbn [drop].
  rewrite overwrite_empty.
  destruct (snapshotDecode _) as [store|e]; [| reflexivity].
  qstep. now rewrite loaded_store.
Qed.

(** Whatever the environment, a snapshot that does not decode stops the
    run, with the files as they were. *)
Lemma load_corrupt (w : World) (f : File) (e : error) :
  files w !! dbFile = Some f -> snapshotDecode (data f) = Err e ->
  stopped (fst (load w)) /\ files (snd (load w)) = files w.
Proof.
  intros Hf He. subst load.
  unfold Website.load, bind, Stat, OpenFile, ReadAll, Close.
  match goal with |- context [syscall ?c ?act w] =>
    destruct (syscall_cases c act w)
      as [(_ & E) | [(_ & _ & E) | (_ & _ & E)]]; rewrite E; clear E
  end; sysred; try (split; [exact I | reflexivity]).
  rewrite Hf. sysred.
  match goal with |- context [syscall ?c ?act ?w1] =>
    destruct (syscall_cases c act w1)
      as [(_ & E) | [(_ & _ & E) | (_ & _ & E)]]; rewrite E; clear E
  end; sysred; try (split; [exact I | reflexivity]).
  rewrite Hf. sysred.
  match goal with |- context [syscall ?c ?act ?w1] =>
    destruct (syscall_cases c act w1)
      as [(_ & E) | [(_ & _ & E) | (_ & _ & E)]]; rewrite E; clear E
  end; sysred; try (split; [exact I | reflexivity]).
  rewrite Hf. sysred. cbn [drop]. rewrite He. split; [exact I | reflexivity].
Qed.

Local Ltac sysc :=
  match goal with |- context [syscall ?c ?act ?w1] =>
    destruct (syscall_cases c act w1)
      as [(_ & E) | [(_ & _ & E) | (_ & _ & E)]]; rewrite E; clear E
  end; sysred.

Lemma load_done (w : World) (gc : GenerationContext.t) :
  fst (load w) = Done gc -> exists m, gc = storeOf m.
Proof.
  subst load.
  unfold Website.load, bind, Stat, OpenFile, Write, Seek0, ReadAll, Close.
  repeat (sysc; try discriminate;
  repeat (match goal with |- context [match ?x !! ?k with _ => _ end] =>
     destruct (x !! k) eqn:?; sysred; try discriminate end)).
  all: destruct (snapshotDecode _) as [store|e]; sysred; try discriminate.
  all: sysc; try discriminate.
  all: intros H; injection H as <-; rewrite loaded_store; eauto.
Qed.

Lemma bind_stopped {A B} (c : M A) (k : A -> M B) (w : World) :
  stopped (fst (c w)) ->
  stopped (fst (bind c k w)) /\ snd (bind c k w) = snd (c w).
Proof.
  unfold bind. destruct (c w) as [[a| | |] w']; cbn; intros H;
    [contradiction | split; [exact I | reflexivity] ..].
Qed.


Lemma save_collision (gc : GenerationContext.t) (w : World) (t : File) :
  files w !! tmpFile = Some t ->
  stopped (fst (save gc w)) /\ files (snd (save gc w)) = files w
  /\ (kill w <> Some O ->
      fst (save gc w) = Fatal "failed to create temporary database file").
Proof.
  intros Ht. subst save. unfold Website.save, bind, OpenFile.
  fold tmpFile.
  match goal with |- context [syscall ?c ?act w] =>
    destruct (syscall_cases c act w)
      as [(Hk & E) | [(_ & _ & E) | (_ & _ & E)]]; rewrite E; clear E
  end; sysred; rewrite ?Ht; sysred;
    (split; [exact I | split; [reflexivity | congruence]]).
Qed.

Lemma save_atomic (gc : GenerationContext.t) (w : World) :
  (stopped (fst (save gc w)) ->
   files (snd (save gc w)) !! dbFile = files w !! dbFile)
  /\ (fst (save gc w) = Done tt ->
      exists js, jsonMarshal (GenerationContext.DataStore gc) = Ok js
        /\ files w !! tmpFile = None
        /\ files (snd (save gc w)) !! dbFile
           = Some (mkFile (zstdCompress SpeedBestCompression (js +:+ nl)) 420)
        /\ files (snd (save gc w)) !! tmpFile = None).
Proof.
  subst save. unfold Website.save, bind, OpenFile, Write, Close, Rename.
  fold tmpFile.
  sysc; try (split; [reflexivity | discriminate]).
  destruct (files w !! tmpFile) as [t|] eqn:Ht; sysred;
    [split; [reflexivity | discriminate] |].
  destruct (jsonMarshal (GenerationContext.DataStore gc)) as [js|e]; sysred.
  2:{ split; [| discriminate]. intros _.
      apply lookup_insert_ne, tmpFile_other. }
  assert (Hkeep : forall x, <[tmpFile := x]> (files w) !! dbFile
                              = files w !! dbFile)
    by (intros x; apply lookup_insert_ne, tmpFile_other).
  sysc; try (split; [intros _; apply Hkeep | discriminate]).
  rewrite lookup_insert_eq. sysred. rewrite insert_insert_eq.
  sysc; try (split; [intros _; apply Hkeep | discriminate]).
  sysc; try (split; [intros _; apply Hkeep | discriminate]).
  rewrite lookup_insert_eq. sysred. split; [contradiction |].
  intros _. exists js. split; [reflexivity |]. split; [reflexivity |].
  rewrite overwrite_empty. split; [apply lookup_insert_eq |].
  rewrite lookup_insert_ne by (apply not_eq_sym, tmpFile_other).
  rewrite delete_insert_eq. apply lookup_delete_eq.
Qed.

Lemma save_quiet (gc : GenerationContext.t) (w : World) (js : string) :
  quiet w -> files w !! tmpFile = None ->
  jsonMarshal (GenerationContext.DataStore gc) = Ok js ->
  fst (save gc w) = Done tt.
Proof.
  intros Hq Ht Hjs. subst save.
  unfold Website.save, bind, OpenFile, Write, Close, Rename.
  fold tmpFile. qstep. rewrite Ht. sysred. rewrite Hjs. qstep.
  rewrite lookup_insert_eq. sysred. qstep. qstep.
  rewrite insert_insert_eq, lookup_insert_eq. reflexivity.
Qed.

(** The fourth system call of [save] is the rename. *)
Lemma save_rename_fails (gc : GenerationContext.t) (w : World) (js : string) :
  kill w = None -> files w !! tmpFile = None ->
  jsonMarshal (GenerationContext.DataStore gc) = Ok js ->
  faults w (length (trace w)) = false ->
  faults w (S (length (trace w))) = false ->
  faults w (S (S (length (trace w)))) = false ->
  faults w (S (S (S (length (trace w))))) = true ->
  fst (save gc w) = Fatal "failed to rename temporary database file"
  /\ files (snd (save gc w)) !! dbFile = files w !! dbFile.
Proof.
  intros Hk Ht Hjs H0 H1 H2 H3. subst save.
  unfold Website.save, bind, OpenFile, Write, Close, Rename, syscall.
  fold tmpFile. rewrite Hk, H0, Ht. sysred. rewrite Hjs. sysred.
  rewrite Hk. cbn [fmap option_fmap option_map length].
  rewrite H1, lookup_insert_eq. sysred.
  rewrite Hk. cbn [fmap option_fmap option_map length]. rewrite H2. sysred.
  rewrite Hk. cbn [fmap option_fmap option_map length]. rewrite H3. sysred.
  split; [reflexivity |].
  rewrite insert_insert_eq. apply lookup_insert_ne, tmpFile_other.
Qed.

(** C8.  Without a snapshot file, in a quiet environment, [main] starts
    from an empty store (the decoder reads back the empty object the program
    has just written).  With a snapshot file that does not decode, the run
    stops there, fatally unless it is killed first: the files are as they
    were and [main] ends in the environment [load] has left, so nothing was
    processed.  A store that is loaded always has a map, empty when the
    snapshot held none. *)
Theorem load_snapshot :
  (forall w,
     quiet w -> files w !! dbFile = None ->
     snapshotDecode (zstdCompress SpeedDefault "{}")
     = Ok (Some (DataStore.mk None)) ->
     fst (load w) = Done (storeOf ∅))
  /\ (forall w f e,
        files w !! dbFile = Some f -> snapshotDecode (data f) = Err e ->
        stopped (fst (load w))
        /\ files (snd (load w)) = files w
        /\ (quiet w -> fst (load w) = Fatal "failed to decode database file")
        /\ stopped (fst (main w))
        /\ snd (main w) = snd (load w))
  /\ (forall w gc, fst (load w) = Done gc -> exists m, gc = storeOf m)
  /\ (forall w f store,
        quiet w -> files w !! dbFile = Some f ->
        snapshotDecode (data f) = Ok store ->
        fst (load w) = Done (storeOf (loadedPosts store)))
  /\ loadedPosts None = ∅
  /\ loadedPosts (Some (DataStore.mk None)) = ∅
  /\ (forall m, loadedPosts (Some (DataStore.mk (Some m))) = m).
Proof.
  split; [| split; [| split; [| split]]].
  - intros w Hq Hf Hd. rewrite (load_quiet_absent w Hq Hf), Hd. reflexivity.
  - intros w f e Hf He.
    destruct (load_corrupt w f e Hf He) as [Hs Hfiles].
    split; [exact Hs |]. split; [exact Hfiles |]. split.
    + intros Hq. destruct (load_quiet_present w f Hq Hf) as [E _].
      now rewrite E, He.
    + subst main. unfold Website.main. fold load.
      now apply bind_stopped.
  - apply load_done.
  - intros w f store Hq Hf Hd.
    destruct (load_quiet_present w f Hq Hf) as [E _]. now rewrite E, Hd.
  - repeat split.
Qed.

(** C9.  [save] creates the temporary file exclusively: when it is already
    there the run stops, fatally unless it is killed first, and no file has
    changed.  However [save] stops (a fatal error, or the process killed at
    any system call), the database file is what it was; when [save] ends
    normally, the store was serialised whole, the database file holds the
    compressed serialisation and the temporary file is gone: there is no
    other state of the database file.  In a quiet environment without a
    temporary file [save] ends normally; when the rename fails, the run stops
    fatally with the database file as it was. *)
Theorem save_snapshot (gc : GenerationContext.t) (w : World) :
  tmpFile = dbFile +:+ ".tmp"
  /\ (forall t,
        files w !! tmpFile = Some t ->
        stopped (fst (save gc w))
        /\ files (snd (save gc w)) = files w
        /\ (kill w <> Some O ->
            fst (save gc w)
            = Fatal "failed to create temporary database file"))
  /\ (stopped (fst (save gc w)) ->
      files (snd (save gc w)) !! dbFile = files w !! dbFile)
  /\ (fst (save gc w) = Done tt ->
      exists js,
        jsonMarshal (GenerationContext.DataStore gc) = Ok js
        /\ files w !! tmpFile = None
        /\ files (snd (save gc w)) !! dbFile
           = Some (mkFile (zstdCompress SpeedBestCompression (js +:+ nl)) 420)
        /\ files (snd (save gc w)) !! tmpFile = None)
  /\ (forall js,
        quiet w -> files w !! tmpFile = None ->
        jsonMarshal (GenerationContext.DataStore gc) = Ok js ->
        fst (save gc w) = Done tt)
  /\ (forall js,
        kill w = None -> files w !! tmpFile = None ->
        jsonMarshal (GenerationContext.DataStore gc) = Ok js ->
        faults w (length (trace w)) = false ->
        faults w (S (length (trace w))) = false ->
        faults w (S (S (length (trace w)))) = false ->
        faults w (S (S (S (length (trace w))))) = true ->
        fst (save gc w) = Fatal "failed to rename temporary database file"
        /\ files (snd (save gc w)) !! dbFile = files w !! dbFile).
Proof.
  split; [reflexivity |].
  split; [intros t; apply save_collision |].
  split; [apply save_atomic |]. split; [apply save_atomic |].
  split; [intros js; apply save_quiet | intros js; apply save_rename_fails].
Qed.

End WithLibraries.

End SnapshotFacts.

(* ===================================================================== *)
(** * The properties on the sample runs *)
(* ===================================================================== *)

Import Sample.
Import GoStringsFacts.

(** The sample environments are quiet. *)
Lemma quiet_world0 (fs : gmap string File) : quiet (withFiles fs world0).
Proof.
  split; [reflexivity | intros n; reflexivity].
Qed.

(** C1 as stated fails on a file without front matter: the run ends with
    the error and the store it was given, no post in it. *)
Lemma invalid_front_matter_counterexample :
  fst (sync gc0 fileA (worldOf srcPlain)) = Done (Err ErrInvalidMarkdown, gc0)
  /\ postsOf gc0 = ∅
  /\ ~ (exists doc gc',
          fst (sync gc0 fileA (worldOf srcPlain)) = Done (Ok doc, gc')).
Proof.
  split; [vm_compute; reflexivity |]. split; [reflexivity |].
  intros (doc & gc' & H). vm_compute in H. discriminate.
Qed.

(** The amended C1 on that file. *)
Lemma invalid_front_matter_aborts_witness :
  sync gc0 fileA (worldOf srcPlain)
  = (Done (Err ErrInvalidMarkdown, gc0),
     afterNormalize docPlain (enter (worldOf srcPlain) (CReadFile fileA))).
Proof.
  refine (proj1 (SyncFacts.invalid_front_matter_aborts lower0 hash0 fmt0 parse0
            yaml0 gc0 fileA (worldOf srcPlain) (mkFile srcPlain 420) docPlain
            (yamlText (Document.Metadata
               (normalized lower0 docPlain
                  (enter (worldOf srcPlain) (CReadFile fileA)))))
            nil _ _ _ _ _ _ _ _ _)).
  - vm_compute. reflexivity.
  - reflexivity.
  - discriminate.
  - reflexivity.
  - reflexivity.
  - reflexivity.
  - reflexivity.
  - reflexivity.
  - apply Index_absent. vm_compute. reflexivity.
Defined.

(** C2 on the second synchronisation of the sample file: same digest, same
    [UpdatedAt]. *)
Lemma merge_existing_post_witness :
  exists p',
    gcAfter run2 = storeOf (<[id1 := p']> (postsOf (gcAfter run1)))
    /\ Post.FilePath p' = fileA
    /\ Post.CreatedAt p' = Post.CreatedAt post1
    /\ Post.Hash p' = Post.Hash post1
    /\ Post.UpdatedAt p' = Post.UpdatedAt post1.
Proof.
  destruct (SyncFacts.merge_existing_post lower0 hash0 fmt0 parse0 yaml0
              (gcAfter run1) (gcAfter run2) fileA (snd run1) (snd run2)
              (docAfter run2) (postsOf (gcAfter run1)) post1)
    as (p' & E & Hfp & _ & _ & _ & Hc & _ & _ & Hsame).
  - vm_compute; reflexivity.
  - vm_compute; reflexivity.
  - vm_compute; reflexivity.
  - exists p'. destruct Hsame as [Hh Hu]; [vm_compute; reflexivity |].
    split. { vm_compute in E. vm_compute. exact E. }
    repeat split; assumption.
Defined.

(** C3 on the first synchronisation of the sample file. *)
Lemma merge_new_post_witness :
  gcAfter run1
  = storeOf (<[id1 := Post.mk id1 fileA path1
                        (Document_Hash hash0 fmt0 (docAfter run1))
                        (Time.mk 1001 0 Time.Local)
                        (Time.mk 1001 0 Time.Local)
                        (Some (docAfter run1)) (Some ∅)]> ∅).
Proof.
  destruct (SyncFacts.merge_new_post lower0 hash0 fmt0 parse0 yaml0
              gc0 (gcAfter run1) fileA (worldOf src0) (snd run1)
              (docAfter run1) ∅) as (Hnew & _ & _).
  - vm_compute. reflexivity.
  - reflexivity.
  - pose proof (Hnew eq_refl) as H. vm_compute in H. vm_compute. exact H.
Defined.

(** C4 on the first synchronisation of the sample file, which is written
    back. *)
Lemma normalizer_fills_missing_fields_witness :
  In (CWriteFile fileA src1) (trace (worldOf src0))
  \/ (exists f d0,
        files (worldOf src0) !! fileA = Some f /\ parse0 (data f) = Ok d0
        /\ missing d0 = true
        /\ Document.Type_ d0 = DocumentType.Markdown /\ fileA = fileA).
Proof.
  destruct (SyncFacts.normalizer_fills_missing_fields lower0 hash0 fmt0 parse0
              yaml0 doc0 world0) as (_ & _ & _ & Hw).
  apply (Hw gc0 fileA (worldOf src0) (fst run1) (snd run1) fileA src1).
  - vm_compute. reflexivity.
  - vm_compute. auto.
Defined.

(** C5 on the two synchronisations of the sample file. *)
Lemma normalization_idempotent_witness :
  files (snd run2) = files (snd run1)
  /\ Metadata.ID (Document.Metadata (docAfter run2))
     = Metadata.ID (Document.Metadata (docAfter run1)).
Proof.
  destruct (SyncFacts.normalization_idempotent lower0 hash0 fmt0 parse0 yaml0)
    as (_ & HB & HC).
  split.
  - destruct (HB (gcAfter run1) fileA (snd run1) (mkFile src1 420) doc1)
      as (Hfiles & _ & _).
    + vm_compute. reflexivity.
    + vm_compute. reflexivity.
    + vm_compute. reflexivity.
    + vm_compute in Hfiles. vm_compute. exact Hfiles.
  - destruct (HC gc0 (gcAfter run1) fileA (worldOf src0) (snd run1)
                (docAfter run1)) as (_ & _ & Hre).
    { vm_compute. reflexivity. }
    apply (Hre (gcAfter run1) (gcAfter run2) (snd run1) (snd run2)
             (mkFile src1 420) doc1 (docAfter run2));
      vm_compute; reflexivity.
Defined.

(** C6 as stated fails where a byte moves from one field to the next: the
    records differ, their digests do not, whatever BLAKE3 and the date
    format are. *)
Lemma digest_boundary_counterexample :
  Metadata.ID metaAB <> Metadata.ID metaA
  /\ Metadata.Title metaAB <> Metadata.Title metaA
  /\ (forall blake3 fmt,
        Metadata_Hash blake3 fmt metaAB = Metadata_Hash blake3 fmt metaA)
  /\ Document.Markdown docAB <> Document.Markdown docA
  /\ Document.HTML docAB <> Document.HTML docA
  /\ (forall blake3 fmt,
        Document_Hash blake3 fmt docAB = Document_Hash blake3 fmt docA).
Proof.
  repeat split; try discriminate; intros; reflexivity.
Qed.

(** The amended C6 on those records. *)
Lemma digests_of_concatenation_witness :
  Metadata_Hash hash0 fmt0 metaAB = Metadata_Hash hash0 fmt0 metaA.
Proof.
  destruct (HashFacts.digests_of_concatenation hash0 fmt0)
    as (_ & _ & H & _).
  apply (H metaAB metaA). reflexivity.
Defined.

(** C7 as stated fails on a title with a tab: the tab is white space and
    stays in the path. *)
Lemma generatePath_tab_counterexample :
  fst (generatePath lower0 tabTitle world0)
  = Done ("/blog/posts/a" +:+ tab +:+ "b-00000000")
  /\ specSlug lower0 tabTitle = "a-b"
  /\ fst (generatePath lower0 tabTitle world0)
     <> Done ("/blog/posts/" +:+ specSlug lower0 tabTitle +:+ "-00000000").
Proof.
  split; [vm_compute; reflexivity |]. split; [vm_compute; reflexivity |].
  vm_compute. discriminate.
Qed.

(** The amended C7 on a run of three hyphens and on two calls in a row. *)
Lemma generatePath_shape_witness :
  collapse ("a" +:+ hyphens 3 +:+ "b") = collapse "a" +:+ "-" +:+ collapse "b"
  /\ fst (generatePath lower0 "Hello World" world0)
     <> fst (generatePath lower0 "Hello World"
               (snd (generatePath lower0 "Hello World" world0))).
Proof.
  pose proof (GeneratePath.generatePath_shape lower0 "Hello World" world0) as H.
  cbv zeta in H. destruct H as (_ & _ & _ & _ & _ & _ & Hc & Hd & _).
  split.
  - apply (Hc "a" "b" 3%nat); [lia | reflexivity | reflexivity].
  - apply Hd. vm_compute. discriminate.
Defined.

(** C8 without a snapshot and with a corrupt one. *)
Lemma load_snapshot_witness :
  fst (load0 world0) = Done (storeOf ∅)
  /\ fst (load0 worldCorrupt) = Fatal "failed to decode database file"
  /\ snd (main0 worldCorrupt) = snd (load0 worldCorrupt).
Proof.
  destruct (SnapshotFacts.load_snapshot lower0 hash0 fmt0 parse0 yaml0 zstd0
              decode0 json0 json0 tree0) as (Ha & Hb & _).
  split.
  - apply Ha; [apply (quiet_world0 ∅) | reflexivity | reflexivity].
  - destruct (Hb worldCorrupt (mkFile "garbage" 420)
                (ErrExternal "corrupt snapshot"))
      as (_ & _ & Hf & _ & Hm); [vm_compute; reflexivity | reflexivity |].
    split; [apply Hf, quiet_world0 | exact Hm].
Defined.

(** C9 with a temporary file left behind and without. *)
Lemma save_snapshot_witness :
  fst (save0 gc0 worldStale) = Fatal "failed to create temporary database file"
  /\ files (snd (save0 gc0 worldStale)) = files worldStale
  /\ fst (save0 gc0 worldSaved) = Done tt.
Proof.
  destruct (SnapshotFacts.save_snapshot zstd0 json0 gc0 worldStale)
    as (_ & Hex & _).
  destruct (Hex (mkFile "half" 420)) as (_ & Hfiles & Hfatal);
    [vm_compute; reflexivity |].
  destruct (SnapshotFacts.save_snapshot zstd0 json0 gc0 worldSaved)
    as (_ & _ & _ & _ & Hok & _).
  split; [apply Hfatal; discriminate |]. split; [exact Hfiles |].
  apply (Hok "{}"); [apply quiet_world0 | vm_compute; reflexivity | reflexivity].
Defined.

(** C10 on a text whose only delimiter line is its second line. *)
Lemma front_matter_detection_lax_witness :
  exists before after,
    srcLate = before +:+ delim +:+ after
    /\ files (snd (writeBack yaml0 fileA docLate (worldOf srcLate))) !! fileA
       = Some (mkFile (delim +:+ yamlText meta0 +:+ delim +:+ after) 420).
Proof.
  destruct (SyncFacts.front_matter_detection_lax yaml0 fileA
              docLate (yamlText meta0)) as (_ & H);
    [reflexivity | reflexivity |].
  destruct (H (worldOf srcLate) (mkFile srcLate 420) ("Hello" +:+ nl)
              ("body" +:+ nl)) as (b & a & Hs & _ & _ & Hf);
    [reflexivity | intros; reflexivity | vm_compute; reflexivity
     | reflexivity | reflexivity |].
  exists b, a. split; assumption.
Defined.

